(** * ConfigModule: startup merge, validation gate, process-environment sync
      and live reload of the dynamic file (lib/config.module.ts)

    The module is embedded shallowly.  Configuration objects are finite maps
    from property names to JSON values; the file system, [process.env] and the
    host object injected under [CONFIGURATION_TOKEN] form the mutable world
    that every operation threads through a state-and-exception monad.  The
    functions of the libraries the module calls ([JSON.parse], [dotenv.parse],
    [dotenvExpand]) and what [process.env] does on its own (the string
    conversion of assigned values, the names it inherits, the names it
    refuses) are not part of the module; they are the fields of the class
    [Runtime]. *)

From stdpp Require Import base option list gmap strings pretty.

#[local] Set Warnings "-register-all".

(** ** Values *)

(** What [JSON.parse] can return.  Numbers are carried as integers: the
    module copies them and tests them for truthiness, nothing else. *)
Inductive json :=
| JNull
| JBool (b : bool)
| JNum (n : Z)
| JStr (s : string)
| JArr (items : list json)
| JObj (props : gmap string json).

(** [Record<string, any>] and the string-valued mappings of [dotenv] and
    [process.env]. *)
Abbreviation Config := (gmap string json).
Abbreviation strmap := (gmap string string).

Definition string_truthy (s : string) : bool :=
  match s with
  | EmptyString => false
  | String _ _ => true
  end.

(** JavaScript truthiness, as tested by [if (v)] and [v || w]. *)
Definition truthy (v : json) : bool :=
  match v with
  | JNull => false
  | JBool b => b
  | JNum n => negb (n =? 0)%Z
  | JStr s => string_truthy s
  | JArr _ => true
  | JObj _ => true
  end.

(** [util.isObject]: [arg !== null && typeof arg === 'object']. *)
Definition isObject (v : json) : bool :=
  match v with
  | JArr _ | JObj _ => true
  | _ => false
  end.

Definition chars (s : string) : list json :=
  (λ c, JStr (String c EmptyString)) <$> String.list_ascii_of_string s.

Definition indexed (l : list json) : Config :=
  list_to_map (imap (λ (i : nat) (x : json), (pretty i, x)) l).

(** The own enumerable string-keyed properties of a value: what an object
    spread [{...v}], [Object.assign(_, v)] and [Object.keys(v)] see.  Arrays
    and strings expose their indices, the other primitives expose nothing. *)
Definition own_entries (v : json) : Config :=
  match v with
  | JObj props => props
  | JArr items => indexed items
  | JStr s => indexed (chars s)
  | JNull | JBool _ | JNum _ => ∅
  end.

(** [Object.keys]: each own key once.  The list comes in the order of the
    map, not in insertion order; its only use is a [forEach] that writes each
    key separately, so the order has no effect. *)
Definition Object_keys (v : json) : list string := (map_to_list (own_entries v)).*1.

(** [json?.data]: [None] stands for [undefined].  Only objects can carry a
    property of that name. *)
Definition json_data (v : json) : option json :=
  match v with
  | JObj props => props !! "data"
  | _ => None
  end.

(** [a || b] where [a] may be [undefined]. *)
Definition or_else (a : option json) (b : json) : json :=
  match a with
  | Some x => if truthy x then x else b
  | None => b
  end.

(** [Object.assign(target, source)] on mappings: every property of [source]
    overwrites the property of the same name in [target]; nothing is merged
    below the top level.  An object spread [{...a, ...b}] defines the
    properties it copies and is this union for every key.  [Object.assign]
    writes with an ordinary assignment, which is this union for every key but
    [__proto__] (see [Object_assign_set]); in [loadEnvFile] both objects come
    from [dotenv.parse], which fills its result by assignment itself, so that
    neither carries an own key of that name. *)
Definition Object_assign {V} (target source : gmap string V) : gmap string V :=
  source ∪ target.

(** Whether an assignment to [__proto__], on an object without an own
    property of that name and with prototype [proto], reaches the setter of
    [Object.prototype].  [None] is [Object.prototype] itself; [Some JNull] is
    no prototype at all; an object that [JSON.parse] built has
    [Object.prototype] behind it, and stops the assignment when it has an own
    data property [__proto__]. *)
Definition reaches_proto_setter (proto : option json) : bool :=
  match proto with
  | None => true
  | Some JNull => false
  | Some (JObj props) => negb (bool_decide (is_Some (props !! "__proto__")))
  | Some _ => true
  end.

(** The setter of [__proto__] takes objects and [null], and ignores the
    rest. *)
Definition accepted_as_prototype (v : json) : bool :=
  match v with
  | JNull | JObj _ | JArr _ => true
  | _ => false
  end.

(** [Object.assign(target, source)] on a [target] whose prototype is [proto],
    with the assignments written out: every key of [source] becomes an own
    property of [target], except [__proto__] when [target] has no own
    property of that name and the assignment reaches the inherited setter;
    the setter replaces the prototype of [target] by an object or [null] and
    ignores any other value.  The result is the own properties and the
    prototype of [target] afterwards. *)
Definition Object_assign_set (target : Config) (proto : option json) (source : Config)
  : Config * option json :=
  match source !! "__proto__" with
  | None => (Object_assign target source, proto)
  | Some v =>
      if bool_decide (is_Some (target !! "__proto__")) || negb (reaches_proto_setter proto)
      then (Object_assign target source, proto)
      else (Object_assign target (delete "__proto__" source),
            if accepted_as_prototype v then Some v else proto)
  end.

(** ** The world *)

(** A path that [fs.existsSync] reports either holds text that
    [fs.readFileSync] returns, or cannot be read (a directory, a file without
    read permission): [readFileSync] throws on it. *)
Inductive node :=
| Readable (content : string)
| Unreadable.

(** The object provided under [CONFIGURATION_TOKEN].  The validated snapshot
    sits under the reserved key [VALIDATED_ENV_PROPNAME]; [None] means that the
    key is undefined.  [validated] holds the own properties of the snapshot
    and [snapshot_proto] its prototype once an assignment has replaced it
    ([None]: still [Object.prototype]).  The registered partials sit under
    their tokens. *)
Record Host := {
  validated : option Config;
  snapshot_proto : option json;
  partials : gmap string json;
}.

Record world := {
  files : gmap string node;
  env : strmap;
  host : Host;
}.

Definition with_env (e : strmap) (w : world) : world :=
  {| files := files w; env := e; host := host w |}.

Definition with_host (h : Host) (w : world) : world :=
  {| files := files w; env := env w; host := h |}.

Definition with_validated (v : option Config) (h : Host) : Host :=
  {| validated := v; snapshot_proto := snapshot_proto h; partials := partials h |}.

Definition with_snapshot_proto (p : option json) (h : Host) : Host :=
  {| validated := validated h; snapshot_proto := p; partials := partials h |}.

Definition with_files (f : gmap string node) (w : world) : world :=
  {| files := f; env := env w; host := host w |}.

(** ** Exceptions and the monad *)

Inductive exn :=
| TypeError
| SystemError (path : string)
| SyntaxError
| Error (message : string).

Inductive result (A : Type) :=
| Ok (a : A)
| Throw (e : exn).
Arguments Ok {A} a.
Arguments Throw {A} e.

Definition M (A : Type) : Type := world → result A * world.

Definition ret {A} (a : A) : M A := λ w, (Ok a, w).

Definition bind {A B} (m : M A) (k : A → M B) : M B := λ w,
  match m w with
  | (Ok a, w') => k a w'
  | (Throw e, w') => (Throw e, w')
  end.

Definition throw {A} (e : exn) : M A := λ w, (Throw e, w).

(** [try { m } catch (e) { h e }] *)
Definition try_catch {A} (m : M A) (h : exn → M A) : M A := λ w,
  match m w with
  | (Ok a, w') => (Ok a, w')
  | (Throw e, w') => h e w'
  end.

Definition lift {A} (r : result A) : M A := λ w, (r, w).

Declare Scope js_scope.
Delimit Scope js_scope with js.
Notation "'let*' x := m 'in' k" := (bind m (λ x, k))
  (at level 10, x name, m at level 100, k at level 200,
   format "'[v' 'let*'  x  :=  m  'in' '/' k ']'") : js_scope.
Notation "m ;;; k" := (bind m (λ _, k))
  (at level 100, k at level 200, right associativity) : js_scope.
Open Scope js_scope.

Fixpoint forEach {A} (l : list A) (f : A → M unit) : M unit :=
  match l with
  | [] => ret tt
  | x :: rest => f x ;;; forEach rest f
  end.

Definition existsSync (path : string) : M bool := λ w,
  (Ok (bool_decide (is_Some (files w !! path))), w).

Definition readFileSync (path : string) : M string := λ w,
  match files w !! path with
  | Some (Readable content) => (Ok content, w)
  | _ => (Throw (SystemError path), w)
  end.

Definition process_env : M strmap := λ w, (Ok (env w), w).

Definition set_process_env (e : strmap) : M unit := λ w, (Ok tt, with_env e w).

(** ** What the module takes from its libraries *)

Class Runtime := {
  (** [JSON.parse]; [None] when it throws a [SyntaxError]. *)
  JSON_parse : string → option json;
  (** [dotenv.parse] of a file's content. *)
  dotenv_parse : string → strmap;
  (** [dotenvExpand({ parsed })]: from [process.env] and the parsed mapping to
      the [parsed] field of its output and the [process.env] it leaves. *)
  dotenvExpand : strmap → strmap → option strmap * strmap;
  (** The conversion [process.env] applies to a value assigned to one of its
      keys; [None] is [undefined]. *)
  env_string : option json → string;
  (** The names [key in process.env] finds although no variable of that name
      is set: the properties [process.env] inherits from its prototype
      ([toString], [constructor], [__proto__], ...). *)
  env_inherits : string → bool;
  (** The names under which an assignment [process.env[key] = value] takes
      effect; an assignment under any other name (the empty name, a name
      that contains [=]) is dropped without an error. *)
  env_accepts : string → bool;
  (** [resolve(process.cwd(), '.env')] *)
  default_env_path : string;
}.

(** ** Options *)

Inductive envFilePath_option :=
| PathUnset
| PathOne (path : string)
| PathList (paths : list string).

Record ValidationResult := {
  vr_error : option string;   (* [error.message] when [error] is defined *)
  vr_value : Config;
}.

Record ConfigModuleOptions := {
  ignoreEnvFile : bool;
  ignoreEnvVars : bool;
  envFilePath : envFilePath_option;
  expandVariables : bool;
  dynamicConfigPath : option string;
  validate : option (Config → result Config);
  validationSchema : option (Config → Config → ValidationResult);
  validationOptions : option Config;
}.


(** ** The module *)

Section ConfigModule.
Context `{Runtime}.

(** [Array.isArray(options.envFilePath) ? options.envFilePath
     : [options.envFilePath || resolve(process.cwd(), '.env')]] *)
Definition envFilePaths (options : ConfigModuleOptions) : list string :=
  match envFilePath options with
  | PathList paths => paths
  | PathOne path => [if string_truthy path then path else default_env_path]
  | PathUnset => [default_env_path]
  end.

(** [dotenvExpand({ parsed: config }).parsed || config] *)
Definition expand (config : strmap) : M strmap :=
  let* penv := process_env in
  let '(parsed, penv') := dotenvExpand penv config in
  set_process_env penv' ;;;
  ret (default config parsed).

(** The body of the [for ... of] loop of [loadEnvFile]. *)
Definition loadEnvFile_step (options : ConfigModuleOptions)
    (envFilePath : string) (config : strmap) : M strmap :=
  let* found := existsSync envFilePath in
  if found then
    let* content := readFileSync envFilePath in
    let config := Object_assign (dotenv_parse content) config in
    if expandVariables options then expand config else ret config
  else ret config.

Fixpoint loadEnvFile_loop (options : ConfigModuleOptions)
    (envFilePaths : list string) (config : strmap) : M strmap :=
  match envFilePaths with
  | [] => ret config
  | envFilePath :: rest =>
      let* config := loadEnvFile_step options envFilePath config in
      loadEnvFile_loop options rest config
  end.

Definition loadEnvFile (options : ConfigModuleOptions) : M strmap :=
  loadEnvFile_loop options (envFilePaths options) ∅.

(** The [try] block of [loadDynamicFile]: [Some v] when it reaches
    [return variables], [None] when control falls out of it. *)
Definition parse_variables (fileContent : string) : M (option json) :=
  match JSON_parse fileContent with
  | None => throw SyntaxError
  | Some json =>
      let variables := or_else (json_data json) json in
      if truthy variables then ret (Some variables) else ret None
  end.

Definition loadDynamicFile (dynamicConfigPath : option string) : M json :=
  match dynamicConfigPath with
  | Some path =>
      let* found := (if string_truthy path then existsSync path else ret false) in
      if found then
        let* fileContent := readFileSync path in
        let* returned := try_catch (parse_variables fileContent) (λ _, ret None) in
        match returned with
        | Some variables => ret variables
        | None => ret (JObj ∅)
        end
      else ret (JObj ∅)
  | None => ret (JObj ∅)
  end.

(** [key in process.env]: a variable of that name is set, or the name is
    inherited. *)
Definition key_in (key : string) (penv : strmap) : bool :=
  bool_decide (is_Some (penv !! key)) || env_inherits key.

(** A name under which the sync can set a variable: [process.env] does not
    inherit it and accepts it. *)
Definition env_settable (key : string) : bool :=
  negb (env_inherits key) && env_accepts key.

(** [process.env[key] = v] *)
Definition assign_env (key : string) (v : option json) : M unit :=
  if env_accepts key then
    let* penv := process_env in
    set_process_env (<[key := env_string v]> penv)
  else ret tt.

Definition assignVariablesToProcess (config : json) : M unit :=
  if negb (isObject config) then ret tt
  else
    let* penv := process_env in
    let keys := filter (λ key, negb (key_in key penv)) (Object_keys config) in
    forEach keys (λ key, assign_env key (own_entries config !! key)).

Definition default_validation_options : Config :=
  {[ "abortEarly" := JBool false; "allowUnknown" := JBool true ]}.

Definition getSchemaValidationOptions (options : ConfigModuleOptions) : Config :=
  match validationOptions options with
  | Some validationOptions =>
      match validationOptions !! "allowUnknown" with
      | None => <["allowUnknown" := JBool true]> validationOptions
      | Some _ => validationOptions
      end
  | None => default_validation_options
  end.

(** What [forRoot] hands to the container, as far as the snapshot and the
    watcher are concerned: the [VALIDATED_ENV_LOADER] provider (present only
    when [validatedEnvConfig] is set, and closing over it) and the
    [DYNAMIC_CONFIG_PATH] provider. *)
Record DynamicModule := {
  validatedEnvConfigLoader : option Config;
  DYNAMIC_CONFIG_PATH : option string;
}.

(** [options.ignoreEnvFile ? {} : this.loadEnvFile(options)] *)
Definition env_file_config (options : ConfigModuleOptions) : M strmap :=
  if ignoreEnvFile options then ret ∅ else loadEnvFile options.

(** Lines 44 to 53 of [forRoot]: the merged configuration. *)
Definition startup_config (options : ConfigModuleOptions) : M Config :=
  let* config := env_file_config options in
  let* dynamicConfig := loadDynamicFile (dynamicConfigPath options) in
  if negb (ignoreEnvVars options) then
    let* penv := process_env in
    ret (Object_assign
           (Object_assign (Object_assign ∅ (JStr <$> config)) (JStr <$> penv))
           (own_entries dynamicConfig))
  else ret (JStr <$> config).

(** Lines 54 to 72: the validation gate and the process-environment sync.
    The result is [validatedEnvConfig]. *)
Definition validation_gate (options : ConfigModuleOptions) (config : Config)
  : M (option Config) :=
  match validate options with
  | Some validate =>
      let* validatedConfig := lift (validate config) in
      assignVariablesToProcess (JObj validatedConfig) ;;;
      ret (Some validatedConfig)
  | None =>
      match validationSchema options with
      | Some schema =>
          let validationOptions := getSchemaValidationOptions options in
          let r := schema config validationOptions in
          match vr_error r with
          | Some message =>
              throw (Error ("Config validation error: " +:+ message))
          | None =>
              assignVariablesToProcess (JObj (vr_value r)) ;;;
              ret (Some (vr_value r))
          end
      | None =>
          assignVariablesToProcess (JObj config) ;;;
          ret None
      end
  end.

Definition forRoot (options : ConfigModuleOptions) : M DynamicModule :=
  let* config := startup_config options in
  let* validatedEnvConfig := validation_gate options config in
  ret {| validatedEnvConfigLoader := validatedEnvConfig;
         DYNAMIC_CONFIG_PATH := dynamicConfigPath options |}.

(** ** The instance and its watcher *)

Record ConfigModule := {
  watcher : option string;   (* the watched path, when a watcher was started *)
}.

Definition get_host : M Host := λ w, (Ok (host w), w).
Definition set_host (h : Host) : M unit := λ w, (Ok tt, with_host h w).

(** The [useFactory] of the [VALIDATED_ENV_LOADER] provider:
    [host[VALIDATED_ENV_PROPNAME] = validatedEnvConfig].  The object put there
    is a plain one, [Object.prototype] behind it. *)
Definition validatedEnvConfigLoader_useFactory (validatedEnvConfig : Config) : M unit :=
  let* h := get_host in
  set_host (with_snapshot_proto None (with_validated (Some validatedEnvConfig) h)).

(** The constructor: a watcher is started exactly when the injected path is
    truthy. *)
Definition constructor (dynamicConfigPath : option string) : M ConfigModule :=
  match dynamicConfigPath with
  | Some path =>
      if string_truthy path then ret {| watcher := Some path |}
      else ret {| watcher := None |}
  | None => ret {| watcher := None |}
  end.

(** The container resolving the providers of a [DynamicModule]: it runs the
    snapshot loader when there is one, then constructs the module instance. *)
Definition instantiate (dm : DynamicModule) : M ConfigModule :=
  match validatedEnvConfigLoader dm with
  | Some validatedEnvConfig => validatedEnvConfigLoader_useFactory validatedEnvConfig
  | None => ret tt
  end ;;;
  constructor (DYNAMIC_CONFIG_PATH dm).

Definition bootstrap (options : ConfigModuleOptions) : M ConfigModule :=
  let* dm := forRoot options in
  instantiate dm.

(** [Object.assign(this.internalConfig[VALIDATED_ENV_PROPNAME], newConfig)]:
    a [TypeError] when the target is [undefined]. *)
Definition assign_snapshot (newConfig : json) : M unit :=
  let* h := get_host in
  match validated h with
  | None => throw TypeError
  | Some snapshot =>
      let '(snapshot', proto') :=
        Object_assign_set snapshot (snapshot_proto h) (own_entries newConfig) in
      set_host (with_snapshot_proto proto' (with_validated (Some snapshot') h))
  end.

(** The callback registered for both [add] and [change]. *)
Definition reload (path : string) : M unit :=
  let* newConfig := loadDynamicFile (Some path) in
  assign_snapshot newConfig.

Inductive fs_event := add | change | unlink | addDir | unlinkDir.

(** The watcher delivering an event for [path] to the instance. *)
Definition emit (this : ConfigModule) (ev : fs_event) (path : string) : M unit :=
  match watcher this with
  | None => ret tt
  | Some _ =>
      match ev with
      | add | change => reload path
      | unlink | addDir | unlinkDir => ret tt
      end
  end.

(** ** Vocabulary of the specification *)

(** No dynamic file to read: no path was given, or it is the empty string, or
    nothing exists under it. *)
Definition source_absent (path : option string) (w : world) : Prop :=
  match path with
  | None => True
  | Some p => string_truthy p = false ∨ files w !! p = None
  end.

(** The path exists but reading it fails. *)
Definition read_fails (path : option string) (w : world) : Prop :=
  ∃ p, path = Some p ∧ string_truthy p = true ∧ files w !! p = Some Unreadable.

(** The path holds text that is not JSON. *)
Definition parse_fails (path : option string) (w : world) : Prop :=
  ∃ p content, path = Some p ∧ string_truthy p = true ∧
    files w !! p = Some (Readable content) ∧ JSON_parse content = None.

(** The loader returns, and returns the empty mapping whenever there is no
    file or reading or parsing it fails. *)
Definition loads_without_raising (path : option string) (w : world) : Prop :=
  ∃ v, loadDynamicFile path w = (Ok v, w) ∧
       (source_absent path w ∨ read_fails path w ∨ parse_fails path w → v = JObj ∅).

(** The loader returns the [data] property of the parsed file when there is
    one, the whole parsed value otherwise. *)
Definition returns_data_or_whole (p : string) (w : world) : Prop :=
  ∀ content j,
    string_truthy p = true →
    files w !! p = Some (Readable content) →
    JSON_parse content = Some j →
    loadDynamicFile (Some p) w = (Ok (from_option id j (json_data j)), w).

(** The value a key gets from three sources ordered low to high: env-file
    configuration [E], process environment [P], dynamic configuration [D]. *)
Definition by_precedence (E P : strmap) (D : Config) (k : string) : option json :=
  match D !! k with
  | Some v => Some v
  | None =>
      match P !! k with
      | Some s => Some (JStr s)
      | None => JStr <$> E !! k
      end
  end.

(** The startup configuration gives every key its value by precedence, [E]
    being what the env files gave, [P] the process environment and [D] what
    the dynamic file gave. *)
Definition merged_by_precedence (options : ConfigModuleOptions) (w : world) : Prop :=
  ∀ E w1 D w2,
    env_file_config options w = (Ok E, w1) →
    loadDynamicFile (dynamicConfigPath options) w1 = (Ok D, w2) →
    ∃ merged, startup_config options w = (Ok merged, w2) ∧
              ∀ k, merged !! k = by_precedence E (env w2) (own_entries D) k.

(** The validation that [forRoot] runs on [config] fails with [e]: the custom
    function, which is preferred when both are given, throws [e]; or, with no
    custom function, the schema reports an error. *)
Inductive validation_fails (options : ConfigModuleOptions) (config : Config)
  : exn → Prop :=
| custom_fails f e :
    validate options = Some f →
    f config = Throw e →
    validation_fails options config e
| schema_fails schema message :
    validate options = None →
    validationSchema options = Some schema →
    vr_error (schema config (getSchemaValidationOptions options)) = Some message →
    validation_fails options config (Error ("Config validation error: " +:+ message)).

Definition validation_configured (options : ConfigModuleOptions) : Prop :=
  is_Some (validate options) ∨ is_Some (validationSchema options).

(** The value of key [k] in the earliest of the listed files that exists and
    defines it. *)
Fixpoint earliest_value (fs : gmap string node) (paths : list string) (k : string)
  : option string :=
  match paths with
  | [] => None
  | path :: rest =>
      match fs !! path with
      | Some (Readable content) =>
          match dotenv_parse content !! k with
          | Some v => Some v
          | None => earliest_value fs rest k
          end
      | _ => earliest_value fs rest k
      end
  end.

(** What the file under [path] defines, nothing when it does not exist. *)
Definition file_entries (fs : gmap string node) (path : string) : strmap :=
  match fs !! path with
  | Some (Readable content) => dotenv_parse content
  | _ => ∅
  end.

(** [loadEnvFile] returns a mapping in which every key holds the value of
    the earliest listed file that exists and defines it. *)
Definition earliest_wins (options : ConfigModuleOptions) (w : world) : Prop :=
  ∃ merged w', loadEnvFile options w = (Ok merged, w') ∧
    ∀ k, merged !! k = earliest_value (files w) (envFilePaths options) k.

(** The event makes the watcher load the dynamic file again and leaves the
    stored snapshot equal to the old one overwritten, key by key, with the
    loaded mapping. *)
Definition reload_overwrites (this : ConfigModule) (ev : fs_event) (path : string)
    (w : world) : Prop :=
  ∃ old loaded w',
    validated (host w) = Some old ∧
    loadDynamicFile (Some path) w = (Ok loaded, w) ∧
    emit this ev path w = (Ok tt, w') ∧
    validated (host w') = Some (Object_assign old (own_entries loaded)).

End ConfigModule.

(** ** Sample data

    A runtime that answers like the real libraries on the few texts used
    below, and the worlds and options the examples run on. *)

Module Sample.

Definition dq : string := String (Ascii.ascii_of_nat 34) EmptyString.

Definition quoted (s : string) : string := dq +:+ s +:+ dq.

(** [{"data":{"PORT":8888}}] and [{"data":{"PORT":9999}}], the two states of
    the dynamic file in the end-to-end test. *)
Definition json_text (port : string) : string :=
  "{" +:+ quoted "data" +:+ ":{" +:+ quoted "PORT" +:+ ":" +:+ port +:+ "}}".

(** [{"data":0}] *)
Definition data_zero_text : string := "{" +:+ quoted "data" +:+ ":0}".

Definition data_zero : json := JObj {[ "data" := JNum 0 ]}.

Definition port_envelope (port : Z) : json :=
  JObj {[ "data" := JObj {[ "PORT" := JNum port ]} ]}.

Definition parse (text : string) : option json :=
  if String.eqb text (json_text "8888") then Some (port_envelope 8888)
  else if String.eqb text (json_text "9999") then Some (port_envelope 9999)
  else if String.eqb text data_zero_text then Some data_zero
  else if String.eqb text "null" then Some JNull
  else None.

Definition nl : string := String (Ascii.ascii_of_nat 10) EmptyString.

(** The two env files: one line [PORT=4000], and the lines [PORT=5000] and
    [HOST=example]. *)
Definition env_local_text : string := "PORT=4000".
Definition env_text : string := "PORT=5000" +:+ nl +:+ "HOST=example".

Definition parse_env (text : string) : strmap :=
  if String.eqb text env_local_text then {[ "PORT" := "4000" ]}
  else if String.eqb text env_text then {[ "PORT" := "5000"; "HOST" := "example" ]}
  else ∅.

Fixpoint String_of (v : json) : string :=
  match v with
  | JNull => "null"
  | JBool true => "true"
  | JBool false => "false"
  | JNum n => pretty n
  | JStr s => s
  | JArr items =>
      String.concat ","
        (map (λ x, match x with JNull => EmptyString | _ => String_of x end) items)
  | JObj _ => "[object Object]"
  end.

(** The property names of [Object.prototype]. *)
Definition inherited_name (key : string) : bool :=
  bool_decide (key ∈ [ "constructor"; "__defineGetter__"; "__defineSetter__";
                       "hasOwnProperty"; "__lookupGetter__"; "__lookupSetter__";
                       "isPrototypeOf"; "propertyIsEnumerable"; "toString";
                       "valueOf"; "__proto__"; "toLocaleString" ]).

(** A variable can be set under a name that is not empty and has no [=]. *)
Definition accepted_name (key : string) : bool :=
  string_truthy key &&
  negb (bool_decide (Ascii.ascii_of_nat 61 ∈ String.list_ascii_of_string key)).

(** No sample turns [expandVariables] on, so [dotenvExpand] is never
    called; it is given as the function that leaves everything as it is. *)
Definition runtime : Runtime := {|
  JSON_parse := parse;
  dotenv_parse := parse_env;
  dotenvExpand := λ penv parsed, (Some parsed, penv);
  env_string := from_option String_of "undefined";
  env_inherits := inherited_name;
  env_accepts := accepted_name;
  default_env_path := "/app/.env";
|}.

Definition empty_host : Host :=
  {| validated := None; snapshot_proto := None; partials := ∅ |}.

Definition dynamic_path : string := "/app/dynamic.json".

(** The application directory: two env files, and [dynamic] under the path
    of the dynamic file. *)
Definition app_files (dynamic : node) : gmap string node :=
  {[ "/app/.env.local" := Readable env_local_text;
     "/app/.env" := Readable env_text;
     dynamic_path := dynamic ]}.

Definition shell_env : strmap := {[ "HOME" := "/root"; "HOST" := "localhost" ]}.

Definition app_world (dynamic : node) : world :=
  {| files := app_files dynamic; env := shell_env; host := empty_host |}.

(** A world in which the snapshot [{PORT: 8888, HOST: "example"}] is
    installed. *)
Definition installed : Config := {[ "PORT" := JNum 8888; "HOST" := JStr "example" ]}.

Definition running_world (dynamic : node) : world :=
  with_host {| validated := Some installed; snapshot_proto := None; partials := ∅ |}
    (app_world dynamic).

(** A dynamic file next to the default env file, no validation. *)
Definition dynamic_options : ConfigModuleOptions := {|
  ignoreEnvFile := false; ignoreEnvVars := false; envFilePath := PathUnset;
  expandVariables := false; dynamicConfigPath := Some dynamic_path;
  validate := None; validationSchema := None; validationOptions := None |}.

Definition env_only_options : ConfigModuleOptions := {|
  ignoreEnvFile := false; ignoreEnvVars := true; envFilePath := PathUnset;
  expandVariables := false; dynamicConfigPath := Some dynamic_path;
  validate := None; validationSchema := None; validationOptions := None |}.

Definition two_files_options : ConfigModuleOptions := {|
  ignoreEnvFile := false; ignoreEnvVars := false;
  envFilePath := PathList ["/app/.env.local"; "/app/.env"];
  expandVariables := false; dynamicConfigPath := None; validate := None;
  validationSchema := None; validationOptions := None |}.

(** A schema that requires the key [X]. *)
Definition requires_X (config options : Config) : ValidationResult :=
  match config !! "X" with
  | Some _ => {| vr_error := None; vr_value := config |}
  | None => {| vr_error := Some (quoted "X" +:+ " is required"); vr_value := config |}
  end.

Definition schema_options : ConfigModuleOptions := {|
  ignoreEnvFile := false; ignoreEnvVars := false; envFilePath := PathUnset;
  expandVariables := false; dynamicConfigPath := Some dynamic_path;
  validate := None; validationSchema := Some requires_X; validationOptions := None |}.

Definition validated_options : ConfigModuleOptions := {|
  ignoreEnvFile := false; ignoreEnvVars := false; envFilePath := PathUnset;
  expandVariables := false; dynamicConfigPath := Some dynamic_path;
  validate := Some (λ config, Ok config); validationSchema := None;
  validationOptions := None |}.

End Sample.

(** ** Further sample data *)

Module Scenario.

(** Validation options of a caller who sets [abortEarly] and nothing else. *)
Definition abort_early : Config := {[ "abortEarly" := JBool true ]}.

Definition abort_early_options : ConfigModuleOptions := {|
  ignoreEnvFile := false; ignoreEnvVars := false; envFilePath := PathUnset;
  expandVariables := false; dynamicConfigPath := Some Sample.dynamic_path;
  validate := None; validationSchema := Some Sample.requires_X;
  validationOptions := Some abort_early |}.

(** A directory without any file. *)
Definition bare_world : world :=
  {| files := ∅; env := Sample.shell_env; host := Sample.empty_host |}.

(** The application directory with an [.env] that cannot be read. *)
Definition locked_env_world : world :=
  {| files := {[ "/app/.env.local" := Readable Sample.env_local_text;
                 "/app/.env" := Unreadable ]};
     env := Sample.shell_env; host := Sample.empty_host |}.

(** The first env file listed a second time at the end. *)
Definition repeated_options : ConfigModuleOptions := {|
  ignoreEnvFile := false; ignoreEnvVars := false;
  envFilePath := PathList ["/app/.env.local"; "/app/.env"; "/app/.env.local"];
  expandVariables := false; dynamicConfigPath := None; validate := None;
  validationSchema := None; validationOptions := None |}.


(** The application started by an operator who exported [PORT]. *)
Definition exported_world : world :=
  with_env {[ "PORT" := "3000" ]} (Sample.app_world (Readable (Sample.json_text "8888"))).

Definition accept (config : Config) : result Config := Ok config.

(** [{"__proto__":{"PORT":1}}] and [{"__proto__":null}] *)
Definition proto_text : string :=
  "{" +:+ Sample.quoted "__proto__" +:+ ":{" +:+ Sample.quoted "PORT" +:+ ":1}}".
Definition null_proto_text : string :=
  "{" +:+ Sample.quoted "__proto__" +:+ ":null}".

Definition parse (text : string) : option json :=
  if String.eqb text proto_text
  then Some (JObj {[ "__proto__" := JObj {[ "PORT" := JNum 1 ]} ]})
  else if String.eqb text null_proto_text
  then Some (JObj {[ "__proto__" := JNull ]})
  else Sample.parse text.

(** [dotenvExpand] as version 5.1.0 of the library behaves on values that
    hold no [$]: a variable that [process.env] already has takes its value
    from there, and every variable of the result is written to
    [process.env]. *)
Definition expand_plain (penv parsed : strmap) : option strmap * strmap :=
  let expanded := map_imap (λ key value, Some (default value (penv !! key))) parsed in
  (Some expanded, expanded ∪ penv).

(** The sample runtime with these two functions. *)
Definition runtime : Runtime := {|
  JSON_parse := parse;
  dotenv_parse := Sample.parse_env;
  dotenvExpand := expand_plain;
  env_string := from_option Sample.String_of "undefined";
  env_inherits := Sample.inherited_name;
  env_accepts := Sample.accepted_name;
  default_env_path := "/app/.env";
|}.

Definition expanding_options : ConfigModuleOptions := {|
  ignoreEnvFile := false; ignoreEnvVars := false; envFilePath := PathUnset;
  expandVariables := true; dynamicConfigPath := None; validate := None;
  validationSchema := None; validationOptions := None |}.

(** A configuration with names that [process.env] inherits or refuses. *)
Definition odd_config : Config :=
  {[ "toString" := JStr "x"; "A=B" := JStr "y"; "PORT" := JNum 8888 ]}.

Definition accept_options : ConfigModuleOptions := {|
  ignoreEnvFile := false; ignoreEnvVars := false; envFilePath := PathUnset;
  expandVariables := false; dynamicConfigPath := Some Sample.dynamic_path;
  validate := Some accept; validationSchema := None; validationOptions := None |}.

Definition accept_and_schema_options : ConfigModuleOptions := {|
  ignoreEnvFile := false; ignoreEnvVars := false; envFilePath := PathUnset;
  expandVariables := false; dynamicConfigPath := Some Sample.dynamic_path;
  validate := Some accept; validationSchema := Some Sample.requires_X;
  validationOptions := Some abort_early |}.

End Scenario.

(** ** Properties *)

Section Properties.
Context `{Runtime}.

Lemma Object_assign_lookup {V} (target source : gmap string V) (k : string) :
  Object_assign target source !! k =
  match source !! k with
  | Some v => Some v
  | None => target !! k
  end.
Proof.
  unfold Object_assign. rewrite lookup_union.
  destruct (source !! k), (target !! k); reflexivity.
Qed.

Lemma Object_assign_empty {V} (target : gmap string V) :
  Object_assign target ∅ = target.
Proof. unfold Object_assign. apply (left_id_L ∅ (∪)). Qed.

Lemma elem_of_Object_keys (v : json) (k : string) :
  k ∈ Object_keys v ↔ is_Some (own_entries v !! k).
Proof.
  unfold Object_keys. rewrite list_elem_of_fmap. split.
  - intros [[k' x] [-> Hin]]. apply elem_of_map_to_list in Hin. eauto.
  - intros [x Hx]. exists (k, x). split; [reflexivity|].
    by apply elem_of_map_to_list.
Qed.

(** The writes of the [forEach] of [assignVariablesToProcess], one key after
    the other; a write under a name [process.env] does not accept is lost. *)
Lemma forEach_assign_env (entries : Config) (keys : list string) (w : world) :
  forEach keys (λ key, assign_env key (entries !! key)) w =
  (Ok tt,
   with_env
     (foldl (λ e key, if env_accepts key
                      then <[key := env_string (entries !! key)]> e else e)
        (env w) keys) w).
Proof.
  revert w. induction keys as [|key keys IH]; intros w.
  - destruct w; reflexivity.
  - cbn [forEach foldl]. unfold bind at 1. unfold assign_env.
    destruct (env_accepts key).
    + unfold bind, process_env, set_process_env. cbn. rewrite IH. reflexivity.
    + unfold ret. rewrite IH. reflexivity.
Qed.

Lemma foldl_insert_lookup (accepts : string → bool) (f : string → string)
    (keys : list string) (e : strmap) (k : string) :
  foldl (λ e key, if accepts key then <[key := f key]> e else e) e keys !! k =
  if bool_decide (k ∈ keys) && accepts k then Some (f k) else e !! k.
Proof.
  revert e. induction keys as [|key keys IH]; intros e; cbn [foldl].
  - rewrite bool_decide_eq_false_2; [reflexivity | apply not_elem_of_nil].
  - rewrite IH.
    assert ((if accepts key then <[key := f key]> e else e) !! k =
            if bool_decide (k = key) && accepts k then Some (f k) else e !! k)
      as ->.
    { destruct (decide (k = key)) as [->|Hne].
      - rewrite bool_decide_eq_true_2 by done. cbn [andb].
        destruct (accepts key); [apply lookup_insert_eq | reflexivity].
      - rewrite bool_decide_eq_false_2 by done. cbn [andb].
        destruct (accepts key); [by apply lookup_insert_ne | reflexivity]. }
    destruct (accepts k); rewrite ?andb_true_r, ?andb_false_r; [|reflexivity].
    destruct (decide (k ∈ keys)) as [Hin|Hnin].
    + rewrite !bool_decide_eq_true_2; [reflexivity | by right | done].
    + rewrite (bool_decide_eq_false_2 (k ∈ keys)) by done.
      destruct (decide (k = key)) as [->|Hne].
      * by rewrite !bool_decide_eq_true_2 by (done || apply list_elem_of_here).
      * rewrite !bool_decide_eq_false_2; [reflexivity | | done].
        intros [->|?]%elem_of_cons; contradiction.
Qed.

(** What the sync leaves in [process.env], key by key. *)
Lemma assignVariablesToProcess_env (config : json) (w : world) :
  ∃ penv, assignVariablesToProcess config w = (Ok tt, with_env penv w) ∧
    ∀ k : string,
      penv !! k =
      match env w !! k with
      | Some prior => Some prior
      | None =>
          if isObject config && env_settable k
          then (λ v, env_string (Some v)) <$> own_entries config !! k
          else None
      end.
Proof.
  unfold assignVariablesToProcess.
  destruct (isObject config) eqn:Hobj; cbn [negb andb].
  - unfold bind at 1, process_env. rewrite forEach_assign_env.
    eexists. split; [reflexivity|]. intros k.
    rewrite (foldl_insert_lookup env_accepts
               (λ key, env_string (own_entries config !! key))).
    unfold env_settable.
    destruct (env w !! k) as [prior|] eqn:Hk.
    + rewrite bool_decide_eq_false_2; [reflexivity|].
      intros [Hp _]%list_elem_of_filter. unfold key_in in Hp.
      rewrite Hk, bool_decide_eq_true_2 in Hp by eauto. exact Hp.
    + destruct (env_inherits k) eqn:Hinh; cbn [negb andb].
      * rewrite bool_decide_eq_false_2; [reflexivity|].
        intros [Hp _]%list_elem_of_filter. unfold key_in in Hp.
        rewrite Hinh, orb_true_r in Hp. exact Hp.
      * destruct (own_entries config !! k) as [v|] eqn:Hv; cbn.
        -- rewrite bool_decide_eq_true_2; [by destruct (env_accepts k)|].
           apply list_elem_of_filter. split.
           ++ unfold key_in. rewrite Hk, Hinh, bool_decide_eq_false_2; [done|].
              by intros [? ?].
           ++ apply elem_of_Object_keys. eauto.
        -- rewrite bool_decide_eq_false_2; [by destruct (env_accepts k)|].
           intros [_ Hin]%list_elem_of_filter.
           apply elem_of_Object_keys in Hin. rewrite Hv in Hin.
           by destruct Hin.
  - exists (env w). split; [by destruct w|].
    intros k. by destruct (env w !! k).
Qed.

(** The sync always returns and writes nothing but [process.env]. *)
Lemma assignVariablesToProcess_frame (config : json) (w : world) :
  ∃ penv, assignVariablesToProcess config w = (Ok tt, with_env penv w).
Proof.
  destruct (assignVariablesToProcess_env config w) as (penv & Hrun & _). eauto.
Qed.


(** *** The dynamic-file loader *)

Lemma loadDynamicFile_absent (path : option string) (w : world) :
  source_absent path w → loadDynamicFile path w = (Ok (JObj ∅), w).
Proof.
  destruct path as [p|]; cbn; [|reflexivity].
  intros [Hp|Hp]; unfold bind.
  - rewrite Hp. reflexivity.
  - destruct (string_truthy p); [|reflexivity].
    unfold existsSync. rewrite Hp, bool_decide_eq_false_2; [reflexivity|].
    by intros [? ?].
Qed.

Lemma loadDynamicFile_unreadable (p : string) (w : world) :
  string_truthy p = true → files w !! p = Some Unreadable →
  loadDynamicFile (Some p) w = (Throw (SystemError p), w).
Proof.
  intros Hp Hf. cbn. unfold bind. rewrite Hp. unfold existsSync.
  rewrite Hf, bool_decide_eq_true_2 by eauto.
  unfold readFileSync. rewrite Hf. reflexivity.
Qed.

Lemma loadDynamicFile_readable (p content : string) (w : world) :
  string_truthy p = true → files w !! p = Some (Readable content) →
  loadDynamicFile (Some p) w =
  (Ok match JSON_parse content with
      | None => JObj ∅
      | Some j =>
          let variables := or_else (json_data j) j in
          if truthy variables then variables else JObj ∅
      end, w).
Proof.
  intros Hp Hf. cbn. unfold bind at 1. rewrite Hp. unfold existsSync.
  rewrite Hf, bool_decide_eq_true_2 by eauto.
  unfold bind at 1, readFileSync. rewrite Hf.
  unfold bind, try_catch, parse_variables.
  destruct (JSON_parse content) as [j|]; [|reflexivity].
  cbn. destruct (truthy (or_else (json_data j) j)); reflexivity.
Qed.

(** The loader does not write: whatever it returns or throws, it leaves the
    world as it found it. *)
Lemma loadDynamicFile_world (path : option string) (w w' : world) (r : result json) :
  loadDynamicFile path w = (r, w') → w' = w.
Proof.
  destruct path as [p|].
  - destruct (string_truthy p) eqn:Hp.
    + destruct (files w !! p) as [[content|]|] eqn:Hf.
      * rewrite (loadDynamicFile_readable p content) by done. congruence.
      * rewrite loadDynamicFile_unreadable by done. congruence.
      * rewrite loadDynamicFile_absent by (right; done). congruence.
    + rewrite loadDynamicFile_absent by (left; done). congruence.
  - rewrite loadDynamicFile_absent by done. congruence.
Qed.

Lemma loadDynamicFile_returns (path : option string) (w : world) :
  (∀ p, path = Some p → string_truthy p = true → files w !! p ≠ Some Unreadable) →
  ∃ v, loadDynamicFile path w = (Ok v, w).
Proof.
  intros Hread. destruct path as [p|].
  - destruct (string_truthy p) eqn:Hp.
    + destruct (files w !! p) as [[content|]|] eqn:Hf.
      * rewrite (loadDynamicFile_readable p content) by done. eauto.
      * exfalso. by eapply Hread.
      * rewrite loadDynamicFile_absent by (right; done). eauto.
    + rewrite loadDynamicFile_absent by (left; done). eauto.
  - rewrite loadDynamicFile_absent by done. eauto.
Qed.

(** C3 (amended) — The loader never raises on a path that is absent, does
    not exist, or holds readable text, malformed JSON included; and it
    returns the empty mapping whenever there is no file or the text does not
    parse.  Only a path that exists and cannot be read is left out: the read
    stands before the [try] block. *)
Theorem loadDynamicFile_total_on_readable (path : option string) (w : world) :
  (∀ p, path = Some p → string_truthy p = true → files w !! p ≠ Some Unreadable) →
  loads_without_raising path w.
Proof.
  intros Hread. unfold loads_without_raising.
  destruct path as [p|].
  - destruct (string_truthy p) eqn:Hp.
    + destruct (files w !! p) as [[content|]|] eqn:Hf.
      * rewrite (loadDynamicFile_readable p content) by done.
        eexists. split; [reflexivity|].
        intros [[?|?]|[(q & Hq & _ & Hu)|(q & c & Hq & _ & Hc & Hparse)]];
          try congruence.
        injection Hq as <-. rewrite Hf in Hc. injection Hc as <-.
        by rewrite Hparse.
      * exfalso. by eapply Hread.
      * rewrite loadDynamicFile_absent by (right; done). eauto.
    + rewrite loadDynamicFile_absent by (left; done). eauto.
  - rewrite loadDynamicFile_absent by done. eauto.
Qed.

Lemma json_data_truthy (j d : json) : json_data j = Some d → truthy j = true.
Proof. destruct j; cbn; congruence. Qed.

(** C4 (amended) — For an existing file whose text parses as [j], the
    loader returns [j]'s [data] property when it is present and truthy; the
    whole of [j] when [data] is present but falsy, or absent with [j] truthy;
    and the empty mapping when [j] is falsy and has no [data]. *)
Theorem loadDynamicFile_data_or_whole (p content : string) (j : json) (w : world) :
  string_truthy p = true →
  files w !! p = Some (Readable content) →
  JSON_parse content = Some j →
  loadDynamicFile (Some p) w =
  (Ok match json_data j with
      | Some d => if truthy d then d else j
      | None => if truthy j then j else JObj ∅
      end, w).
Proof.
  intros Hp Hf Hparse. rewrite (loadDynamicFile_readable p content) by done.
  rewrite Hparse. cbn zeta. unfold or_else.
  destruct (json_data j) as [d|] eqn:Hd; [|reflexivity].
  destruct (truthy d) eqn:Hd'; [by rewrite Hd'|].
  by rewrite (json_data_truthy j d).
Qed.

(** *** The env-file loader *)

(** A step of the loop writes at most [process.env] (through [dotenvExpand]);
    files and host stay. *)
Lemma loadEnvFile_step_frame (options : ConfigModuleOptions) (p : string)
    (config : strmap) (w w' : world) (r : result strmap) :
  loadEnvFile_step options p config w = (r, w') →
  files w' = files w ∧ host w' = host w ∧
  (expandVariables options = false → env w' = env w).
Proof.
  unfold loadEnvFile_step, bind, existsSync, readFileSync.
  destruct (files w !! p) as [[content|]|] eqn:Hf.
  - rewrite bool_decide_eq_true_2 by eauto. cbv beta iota. rewrite Hf.
    destruct (expandVariables options).
    + unfold expand, bind, process_env, set_process_env, ret.
      destruct (dotenvExpand (env w) (Object_assign (dotenv_parse content) config))
        as [parsed penv'].
      intros [= <- <-]. cbn. repeat split; done.
    + unfold ret. intros [= <- <-]. done.
  - rewrite bool_decide_eq_true_2 by eauto. cbv beta iota. rewrite Hf.
    intros [= <- <-]. done.
  - rewrite bool_decide_eq_false_2 by (by intros [? ?]).
    unfold ret. intros [= <- <-]. done.
Qed.

Lemma loadEnvFile_loop_frame (options : ConfigModuleOptions) (paths : list string)
    (config : strmap) (w w' : world) (r : result strmap) :
  loadEnvFile_loop options paths config w = (r, w') →
  files w' = files w ∧ host w' = host w ∧
  (expandVariables options = false → env w' = env w).
Proof.
  revert config w. induction paths as [|p paths IH]; intros config w; cbn.
  - unfold ret. intros [= <- <-]. done.
  - unfold bind.
    destruct (loadEnvFile_step options p config w) as [[c|e] w1] eqn:Hstep;
      apply loadEnvFile_step_frame in Hstep as (Hf & Hh & He).
    + intros (Hf' & Hh' & He')%IH. repeat split; try congruence.
      intros Hx. rewrite He', He; done.
    + intros [= <- <-]. done.
Qed.

Lemma loadEnvFile_loop_app (options : ConfigModuleOptions) (ps qs : list string)
    (config : strmap) (w : world) :
  loadEnvFile_loop options (ps ++ qs) config w =
  (let* acc := loadEnvFile_loop options ps config in
   loadEnvFile_loop options qs acc) w.
Proof.
  revert config w. induction ps as [|p ps IH]; intros config w; cbn.
  - reflexivity.
  - unfold bind.
    destruct (loadEnvFile_step options p config w) as [[c|e] w1]; [|reflexivity].
    rewrite IH. reflexivity.
Qed.

(** Without expansion a step fills the keys of the file in where the
    accumulated configuration lacks them, and writes nothing. *)
Lemma loadEnvFile_step_plain (options : ConfigModuleOptions) (p : string)
    (config : strmap) (w : world) :
  expandVariables options = false →
  files w !! p ≠ Some Unreadable →
  loadEnvFile_step options p config w =
  (Ok (Object_assign (file_entries (files w) p) config), w).
Proof.
  intros Hx Hread.
  unfold loadEnvFile_step, bind, existsSync, readFileSync, file_entries.
  destruct (files w !! p) as [[content|]|] eqn:Hf.
  - rewrite bool_decide_eq_true_2 by eauto. cbv beta iota.
    rewrite Hf, Hx. reflexivity.
  - done.
  - rewrite bool_decide_eq_false_2 by (by intros [? ?]).
    unfold ret, Object_assign. by rewrite (right_id_L ∅ (∪)).
Qed.

(** With or without expansion, the object a step builds from an existing file
    keeps every key the accumulated configuration has and takes the others
    from the file. *)
Lemma loadEnvFile_step_fills_in (options : ConfigModuleOptions) (p content : string)
    (config : strmap) (w : world) :
  files w !! p = Some (Readable content) →
  let merged := Object_assign (dotenv_parse content) config in
  loadEnvFile_step options p config w =
    (if expandVariables options then expand merged else ret merged) w ∧
  ∀ k, merged !! k =
       match config !! k with
       | Some v => Some v
       | None => dotenv_parse content !! k
       end.
Proof.
  intros Hf merged. split.
  - unfold loadEnvFile_step, bind, existsSync, readFileSync.
    rewrite Hf, bool_decide_eq_true_2 by eauto. cbv beta iota.
    rewrite Hf. reflexivity.
  - intros k. apply Object_assign_lookup.
Qed.

Lemma loadEnvFile_loop_plain (options : ConfigModuleOptions) (paths : list string)
    (config : strmap) (w : world) :
  expandVariables options = false →
  (∀ p, p ∈ paths → files w !! p ≠ Some Unreadable) →
  ∃ merged, loadEnvFile_loop options paths config w = (Ok merged, w) ∧
    ∀ k, merged !! k =
         match config !! k with
         | Some v => Some v
         | None => earliest_value (files w) paths k
         end.
Proof.
  intros Hx. revert config.
  induction paths as [|p paths IH]; intros config Hread; cbn.
  - exists config. split; [reflexivity|]. intros k. by destruct (config !! k).
  - unfold bind. rewrite loadEnvFile_step_plain;
      [|done|apply Hread, list_elem_of_here].
    destruct (IH (Object_assign (file_entries (files w) p) config))
      as (merged & -> & Hm).
    { intros q Hq. apply Hread. by right. }
    exists merged. split; [reflexivity|]. intros k.
    rewrite Hm, Object_assign_lookup. unfold file_entries.
    destruct (config !! k); [reflexivity|].
    destruct (files w !! p) as [[content|]|]; rewrite ?lookup_empty; reflexivity.
Qed.

(** C2 (amended) — Env files, earliest first.  With variable expansion
    off and the listed paths readable where they exist, [loadEnvFile]
    returns, without writing anything, a mapping in which every key holds the
    value of the earliest listed existing file that defines it; and a later
    file's keys are filled in only where the result accumulated from the
    files before it lacks them: the result after the file keeps every
    accumulated key with its value and takes the other keys from the file. *)
Theorem loadEnvFile_earliest_wins (options : ConfigModuleOptions) (w : world) :
  expandVariables options = false →
  (∀ p, p ∈ envFilePaths options → files w !! p ≠ Some Unreadable) →
  ∃ merged, loadEnvFile options w = (Ok merged, w) ∧
    (∀ k, merged !! k = earliest_value (files w) (envFilePaths options) k) ∧
    (∀ earlier later rest,
       envFilePaths options = earlier ++ later :: rest →
       ∃ acc acc',
         loadEnvFile_loop options earlier ∅ w = (Ok acc, w) ∧
         loadEnvFile_loop options (earlier ++ [later]) ∅ w = (Ok acc', w) ∧
         ∀ k, acc' !! k =
              match acc !! k with
              | Some v => Some v
              | None => file_entries (files w) later !! k
              end).
Proof.
  intros Hx Hread. unfold loadEnvFile.
  destruct (loadEnvFile_loop_plain options (envFilePaths options) ∅ w Hx Hread)
    as (merged & Hrun & Hm).
  exists merged. split; [exact Hrun|]. split.
  - intros k. by rewrite Hm, lookup_empty.
  - intros earlier later rest Hpaths.
    destruct (loadEnvFile_loop_plain options earlier ∅ w Hx) as (acc & Hacc & _).
    { intros q Hq. apply Hread. rewrite Hpaths. apply elem_of_app. by left. }
    exists acc, (Object_assign (file_entries (files w) later) acc).
    split; [exact Hacc|]. split.
    + rewrite loadEnvFile_loop_app. unfold bind at 1. rewrite Hacc.
      cbn [loadEnvFile_loop]. unfold bind at 1.
      rewrite loadEnvFile_step_plain; [reflexivity | exact Hx |].
      apply Hread. rewrite Hpaths. apply elem_of_app. right. apply list_elem_of_here.
    + intros k. apply Object_assign_lookup.
Qed.

(** *** The startup merge *)

Lemma env_file_config_frame (options : ConfigModuleOptions) (w w' : world)
    (r : result strmap) :
  env_file_config options w = (r, w') →
  files w' = files w ∧ host w' = host w ∧
  (expandVariables options = false → env w' = env w).
Proof.
  unfold env_file_config. destruct (ignoreEnvFile options).
  - unfold ret. intros [= <- <-]. done.
  - apply loadEnvFile_loop_frame.
Qed.

Lemma startup_config_frame (options : ConfigModuleOptions) (w w' : world)
    (r : result Config) :
  startup_config options w = (r, w') →
  files w' = files w ∧ host w' = host w ∧
  (expandVariables options = false → env w' = env w).
Proof.
  unfold startup_config, bind.
  destruct (env_file_config options w) as [[E|e] w1] eqn:HE;
    apply env_file_config_frame in HE.
  - destruct (loadDynamicFile (dynamicConfigPath options) w1) as [[D|e] w2] eqn:HD;
      apply loadDynamicFile_world in HD as ->.
    + destruct (ignoreEnvVars options); cbn; unfold process_env, ret;
        intros [= <- <-]; exact HE.
    + intros [= <- <-]. exact HE.
  - intros [= <- <-]. exact HE.
Qed.

(** C1 (amended) — Unless [ignoreEnvVars] is set, the startup configuration
    gives every key the value of the highest source that defines it, the
    sources ordered low to high: env-file configuration, process environment,
    dynamic configuration. *)
Theorem startup_config_precedence (options : ConfigModuleOptions) (w : world) :
  ignoreEnvVars options = false → merged_by_precedence options w.
Proof.
  intros Hvars E w1 D w2 HE HD. unfold startup_config, bind.
  rewrite HE, HD, Hvars. cbn. unfold process_env, ret.
  eexists. split; [reflexivity|]. intros k.
  rewrite !Object_assign_lookup, !lookup_fmap, lookup_empty.
  unfold by_precedence.
  destruct (own_entries D !! k); [reflexivity|].
  destruct (env w2 !! k); [reflexivity|].
  by destruct (E !! k).
Qed.

(** C10 — With [ignoreEnvVars] set the startup configuration is the
    env-file configuration alone, whatever the process environment holds and
    whatever the dynamic file gave. *)
Theorem startup_config_ignoreEnvVars (options : ConfigModuleOptions)
    (w w1 w2 : world) (E : strmap) (D : json) :
  ignoreEnvVars options = true →
  env_file_config options w = (Ok E, w1) →
  loadDynamicFile (dynamicConfigPath options) w1 = (Ok D, w2) →
  startup_config options w = (Ok (JStr <$> E), w2) ∧
  ∀ merged, startup_config options w = (Ok merged, w2) →
            ∀ k, merged !! k = JStr <$> E !! k.
Proof.
  intros Hvars HE HD.
  assert (startup_config options w = (Ok (JStr <$> E), w2)) as Hrun.
  { unfold startup_config, bind. rewrite HE, HD, Hvars. reflexivity. }
  split; [exact Hrun|].
  intros merged Hm k. rewrite Hrun in Hm. injection Hm as <-.
  apply lookup_fmap.
Qed.

(** *** The validation gate *)

Lemma getSchemaValidationOptions_default (options : ConfigModuleOptions) :
  validationOptions options = None →
  getSchemaValidationOptions options =
  {[ "abortEarly" := JBool false; "allowUnknown" := JBool true ]}.
Proof. unfold getSchemaValidationOptions. by intros ->. Qed.

(** The gate returns a snapshot exactly when a validator was given, and does
    not touch the host. *)
Lemma validation_gate_snapshot (options : ConfigModuleOptions) (config : Config)
    (w w' : world) (snapshot : option Config) :
  validation_gate options config w = (Ok snapshot, w') →
  host w' = host w ∧ files w' = files w ∧
  (is_Some snapshot ↔ validation_configured options).
Proof.
  unfold validation_gate, validation_configured.
  destruct (validate options) as [f|].
  - unfold bind at 1, lift. destruct (f config) as [v|e]; [|done].
    unfold bind. destruct (assignVariablesToProcess_frame (JObj v) w) as [penv ->].
    unfold ret. intros [= <- <-]. cbn. split; [done|]. split; [done|].
    split; eauto.
  - destruct (validationSchema options) as [schema|].
    + destruct (vr_error _) as [message|]; [done|].
      unfold bind.
      match goal with
      | |- context [assignVariablesToProcess ?c w] =>
          destruct (assignVariablesToProcess_frame c w) as [penv ->]
      end.
      unfold ret. intros [= <- <-]. cbn. split; [done|]. split; [done|].
      split; eauto.
    + unfold bind.
      destruct (assignVariablesToProcess_frame (JObj config) w) as [penv ->].
      unfold ret. intros [= <- <-]. cbn. split; [done|]. split; [done|].
      split; [by intros [? ?] | by intros [[? ?]|[? ?]]].
Qed.

(** C6 — When the validation that [forRoot] runs on the merged
    configuration fails (the schema reports an error; or the custom
    function, preferred when both are given, throws), [forRoot] raises the
    validator's error, for a schema [Error] with its message after the prefix
    [Config validation error: ], and nothing is committed: the world is the
    one in which validation ran, host untouched, [process.env] not written
    by the sync, and no module is instantiated.  When no validation options
    are given, the schema is called with [abortEarly] false and
    [allowUnknown] true. *)
Theorem forRoot_validation_failure (options : ConfigModuleOptions)
    (w w1 : world) (config : Config) (e : exn) :
  startup_config options w = (Ok config, w1) →
  validation_fails options config e →
  forRoot options w = (Throw e, w1) ∧
  bootstrap options w = (Throw e, w1) ∧
  host w1 = host w ∧
  (expandVariables options = false → env w1 = env w) ∧
  (∀ schema,
     validate options = None →
     validationSchema options = Some schema →
     validationOptions options = None →
     validation_gate options config =
     let r := schema config {[ "abortEarly" := JBool false; "allowUnknown" := JBool true ]} in
     match vr_error r with
     | Some message => throw (Error ("Config validation error: " +:+ message))
     | None =>
         assignVariablesToProcess (JObj (vr_value r)) ;;; ret (Some (vr_value r))
     end).
Proof.
  intros Hstart Hfail.
  assert (validation_gate options config w1 = (Throw e, w1)) as Hgate.
  { unfold validation_gate.
    destruct Hfail as [f e Hf Hthrow | schema message Hnone Hschema Herr].
    - rewrite Hf. unfold bind, lift. by rewrite Hthrow.
    - rewrite Hnone, Hschema. cbn zeta. by rewrite Herr. }
  assert (forRoot options w = (Throw e, w1)) as Hroot.
  { unfold forRoot, bind. by rewrite Hstart, Hgate. }
  split; [exact Hroot|]. split.
  { unfold bootstrap, bind. by rewrite Hroot. }
  destruct (startup_config_frame _ _ _ _ Hstart) as (_ & Hhost & Henv).
  split; [exact Hhost|]. split; [exact Henv|].
  intros schema Hnone Hschema Hopts.
  unfold validation_gate.
  by rewrite Hnone, Hschema, (getSchemaValidationOptions_default options Hopts).
Qed.

(** *** The watcher *)

Lemma with_validated_same (h : Host) : with_validated (validated h) h = h.
Proof. by destruct h. Qed.

Lemma with_host_same (w : world) : with_host (host w) w = w.
Proof. by destruct w. Qed.

Lemma with_snapshot_proto_same (v : option Config) (h : Host) :
  with_snapshot_proto (snapshot_proto h) (with_validated v h) = with_validated v h.
Proof. reflexivity. Qed.

(** Without a key [__proto__] in the source the assignment is the union and
    the prototype stays. *)
Lemma Object_assign_set_plain (target : Config) (proto : option json) (source : Config) :
  source !! "__proto__" = None →
  Object_assign_set target proto source = (Object_assign target source, proto).
Proof. intros Hnone. unfold Object_assign_set. by rewrite Hnone. Qed.

(** Every key but [__proto__] is overwritten from the source. *)
Lemma Object_assign_set_lookup (target : Config) (proto : option json)
    (source : Config) (k : string) :
  k ≠ "__proto__" →
  (Object_assign_set target proto source).1 !! k =
  match source !! k with
  | Some v => Some v
  | None => target !! k
  end.
Proof.
  intros Hk. unfold Object_assign_set.
  destruct (source !! "__proto__") as [v|]; [|apply Object_assign_lookup].
  destruct (_ || _); cbn [fst]; rewrite Object_assign_lookup; [reflexivity|].
  by rewrite lookup_delete_ne.
Qed.

(** No key of the target is lost. *)
Lemma Object_assign_set_keeps (target : Config) (proto : option json)
    (source : Config) (k : string) :
  is_Some (target !! k) → is_Some ((Object_assign_set target proto source).1 !! k).
Proof.
  intros [x Hx]. unfold Object_assign_set.
  destruct (source !! "__proto__") as [v|];
    [destruct (_ || _)|]; cbn [fst]; rewrite Object_assign_lookup, Hx.
  - destruct (source !! k); eexists; reflexivity.
  - destruct (delete "__proto__" source !! k); eexists; reflexivity.
  - destruct (source !! k); eexists; reflexivity.
Qed.

Lemma assign_snapshot_installed (newConfig : json) (snapshot : Config) (w : world) :
  validated (host w) = Some snapshot →
  assign_snapshot newConfig w =
  (Ok tt,
   with_host
     (with_snapshot_proto
        (Object_assign_set snapshot (snapshot_proto (host w)) (own_entries newConfig)).2
        (with_validated
           (Some (Object_assign_set snapshot (snapshot_proto (host w))
                    (own_entries newConfig)).1)
           (host w))) w).
Proof.
  intros Hs. unfold assign_snapshot, bind, get_host. rewrite Hs.
  by destruct (Object_assign_set _ _ _).
Qed.

Lemma assign_snapshot_plain (newConfig : json) (snapshot : Config) (w : world) :
  validated (host w) = Some snapshot →
  own_entries newConfig !! "__proto__" = None →
  assign_snapshot newConfig w =
  (Ok tt,
   with_host
     (with_validated (Some (Object_assign snapshot (own_entries newConfig))) (host w)) w).
Proof.
  intros Hs Hplain. rewrite (assign_snapshot_installed newConfig snapshot) by done.
  by rewrite Object_assign_set_plain.
Qed.

Lemma assign_snapshot_undefined (newConfig : json) (w : world) :
  validated (host w) = None → assign_snapshot newConfig w = (Throw TypeError, w).
Proof.
  intros Hs. unfold assign_snapshot, bind, get_host. by rewrite Hs.
Qed.

Lemma emit_reload (this : ConfigModule) (ev : fs_event) (path : string) :
  is_Some (watcher this) → ev = add ∨ ev = change → emit this ev path = reload path.
Proof.
  intros [p Hp] [->| ->]; unfold emit; by rewrite Hp.
Qed.

(** An event either runs the reload callback or does nothing. *)
Lemma emit_cases (this : ConfigModule) (ev : fs_event) (path : string) :
  emit this ev path = reload path ∨ emit this ev path = ret tt.
Proof.
  unfold emit. destruct (watcher this); [|by right].
  destruct ev; auto.
Qed.

(** C7 (amended) — On an [add] or [change] event, with a snapshot installed
    under the reserved key and a path that can be read when it exists, the
    watcher loads the dynamic file again from the path of the event and
    assigns the result onto the stored snapshot in place: the callback
    returns; for every key other than [__proto__] the snapshot afterwards
    holds the loaded value when the loaded mapping has the key and its old
    value otherwise, nothing being merged below the top level; files,
    [process.env] and partials stay; and when the loaded mapping has no key
    [__proto__] the snapshot is the old one overwritten with the loaded
    mapping and nothing else in the world changes. *)
Theorem watcher_reload_assigns (this : ConfigModule) (ev : fs_event)
    (path : string) (w : world) (snapshot : Config) :
  is_Some (watcher this) →
  ev = add ∨ ev = change →
  validated (host w) = Some snapshot →
  files w !! path ≠ Some Unreadable →
  ∃ loaded w' snapshot',
    loadDynamicFile (Some path) w = (Ok loaded, w) ∧
    emit this ev path w = (Ok tt, w') ∧
    files w' = files w ∧ env w' = env w ∧
    partials (host w') = partials (host w) ∧
    validated (host w') = Some snapshot' ∧
    (∀ k, k ≠ "__proto__" →
          snapshot' !! k =
          match own_entries loaded !! k with
          | Some v => Some v
          | None => snapshot !! k
          end) ∧
    (own_entries loaded !! "__proto__" = None →
     snapshot' = Object_assign snapshot (own_entries loaded) ∧
     w' = with_host (with_validated (Some snapshot') (host w)) w).
Proof.
  intros Hwatch Hev Hsnap Hread.
  destruct (loadDynamicFile_returns (Some path) w) as [loaded Hload].
  { intros p [= <-] _. exact Hread. }
  exists loaded. eexists. eexists.
  split; [exact Hload|]. split.
  { rewrite emit_reload by done. unfold reload, bind. rewrite Hload.
    by apply (assign_snapshot_installed loaded snapshot). }
  cbn. repeat split.
  - intros k Hk. by apply Object_assign_set_lookup.
  - by rewrite Object_assign_set_plain.
  - by rewrite Object_assign_set_plain.
Qed.

Lemma reload_read_fails (path : string) (w : world) :
  read_fails (Some path) w → reload path w = (Throw (SystemError path), w).
Proof.
  intros (p & [= <-] & Hp & Hf). unfold reload, bind.
  by rewrite loadDynamicFile_unreadable.
Qed.

Lemma reload_parse_fails (path : string) (w : world) :
  parse_fails (Some path) w →
  reload path w =
  match validated (host w) with
  | Some _ => (Ok tt, w)
  | None => (Throw TypeError, w)
  end.
Proof.
  intros (p & content & [= <-] & Hp & Hf & Hparse). unfold reload, bind.
  rewrite (loadDynamicFile_readable path content), Hparse by done.
  destruct (validated (host w)) as [snapshot|] eqn:Hs.
  - rewrite (assign_snapshot_plain _ snapshot) by done.
    cbn [own_entries]. rewrite Object_assign_empty, <- Hs.
    by rewrite with_validated_same, with_host_same.
  - by apply assign_snapshot_undefined.
Qed.

(** C8 — A reload event for a dynamic file that holds malformed JSON, or
    that cannot be read, leaves the stored snapshot, and the rest of the
    world, exactly as they were; with malformed JSON and a snapshot in place
    the callback returns normally. *)
Theorem watcher_reload_failure_keeps_snapshot (this : ConfigModule)
    (ev : fs_event) (path : string) (w w' : world) (r : result unit) :
  parse_fails (Some path) w ∨ read_fails (Some path) w →
  emit this ev path w = (r, w') →
  validated (host w') = validated (host w) ∧ w' = w ∧
  (parse_fails (Some path) w → is_Some (validated (host w)) → r = Ok tt).
Proof.
  intros Hfail Hemit.
  assert (w' = w ∧ (parse_fails (Some path) w → is_Some (validated (host w)) → r = Ok tt))
    as [-> Hok]; [|done].
  destruct (emit_cases this ev path) as [Heq|Heq]; rewrite Heq in Hemit.
  - destruct Hfail as [Hparse|Hread].
    + rewrite (reload_parse_fails path w Hparse) in Hemit.
      destruct (validated (host w)) as [snapshot|].
      * injection Hemit as <- <-. done.
      * injection Hemit as <- <-. split; [done|]. by intros _ [? ?].
    + rewrite (reload_read_fails path w Hread) in Hemit.
      injection Hemit as <- <-. split; [done|].
      destruct Hread as (p & [= <-] & _ & Hu).
      intros (q & content & [= <-] & _ & Hc & _). congruence.
  - unfold ret in Hemit. injection Hemit as <- <-. done.
Qed.

Lemma instantiate_host (dm : DynamicModule) (w : world) :
  ∃ this,
    instantiate dm w =
      (Ok this,
       match validatedEnvConfigLoader dm with
       | Some snapshot =>
           with_host
             (with_snapshot_proto None (with_validated (Some snapshot) (host w))) w
       | None => w
       end) ∧
    watcher this =
      match DYNAMIC_CONFIG_PATH dm with
      | Some p => if string_truthy p then Some p else None
      | None => None
      end.
Proof.
  unfold instantiate, bind, constructor.
  destruct (validatedEnvConfigLoader dm) as [snapshot|];
    destruct (DYNAMIC_CONFIG_PATH dm) as [p|]; cbn;
    try destruct (string_truthy p); eauto.
Qed.

(** What a successful bootstrap leaves under the reserved key of a host that
    had nothing there: a snapshot exactly when validation was configured. *)
Lemma bootstrap_snapshot (options : ConfigModuleOptions) (this : ConfigModule)
    (w w1 : world) :
  bootstrap options w = (Ok this, w1) →
  validated (host w) = None →
  (is_Some (validated (host w1)) ↔ validation_configured options) ∧
  watcher this =
    match dynamicConfigPath options with
    | Some p => if string_truthy p then Some p else None
    | None => None
    end.
Proof.
  unfold bootstrap, forRoot, bind. intros Hboot Hfresh.
  destruct (startup_config options w) as [[config|e] w0] eqn:Hstart; [|done].
  apply startup_config_frame in Hstart as (_ & Hh0 & _).
  destruct (validation_gate options config w0) as [[snapshot|e] w2] eqn:Hgate; [|done].
  apply validation_gate_snapshot in Hgate as (Hh2 & _ & Hconf).
  unfold ret in Hboot.
  destruct (instantiate_host
              {| validatedEnvConfigLoader := snapshot;
                 DYNAMIC_CONFIG_PATH := dynamicConfigPath options |} w2)
    as (this' & Hinst & Hwatch).
  rewrite Hinst in Hboot. injection Hboot as <- <-.
  split; [|exact Hwatch]. rewrite <- Hconf. cbn.
  destruct snapshot as [snapshot|]; cbn; [done|].
  by rewrite Hh2, Hh0, Hfresh.
Qed.

(** C9 — For a module bootstrapped with a dynamic configuration path on a
    host whose reserved key was undefined, the reload callback of an [add] or
    [change] event returns without raising only if validation was configured
    (a [validate] function or a [validationSchema]): without it the key is
    never installed and the callback throws.  With validation configured and
    a path that can be read when it exists, the callback does return. *)
Theorem watcher_reload_needs_validation (options : ConfigModuleOptions)
    (this : ConfigModule) (w w1 w2 : world) (p path : string) (ev : fs_event) :
  bootstrap options w = (Ok this, w1) →
  validated (host w) = None →
  dynamicConfigPath options = Some p →
  string_truthy p = true →
  host w2 = host w1 →
  ev = add ∨ ev = change →
  (fst (emit this ev path w2) = Ok tt → validation_configured options) ∧
  (¬ validation_configured options → ∃ e, emit this ev path w2 = (Throw e, w2)) ∧
  (validation_configured options →
   files w2 !! path ≠ Some Unreadable →
   fst (emit this ev path w2) = Ok tt).
Proof.
  intros Hboot Hfresh Hpath Hp Hhost Hev.
  destruct (bootstrap_snapshot options this w w1 Hboot Hfresh) as [Hconf Hwatch].
  rewrite Hpath, Hp in Hwatch.
  rewrite (emit_reload this ev path) by (rewrite ?Hwatch; eauto).
  assert (¬ validation_configured options →
          ∃ e, reload path w2 = (Throw e, w2)) as Hraise.
  { intros Hnone. unfold reload, bind.
    destruct (loadDynamicFile (Some path) w2) as [[loaded|e] w3] eqn:Hload;
      apply loadDynamicFile_world in Hload as ->; [|eauto].
    rewrite assign_snapshot_undefined; [eauto|].
    rewrite Hhost. destruct (validated (host w1)) eqn:Hs; [|done].
    exfalso. apply Hnone, Hconf. eauto. }
  split; [|split; [exact Hraise|]].
  - intros Hok.
    destruct (decide (is_Some (validated (host w1)))) as [Hs|Hs];
      [by apply Hconf|].
    destruct Hraise as [e He]; [by rewrite <- Hconf|].
    rewrite He in Hok. done.
  - intros [snapshot Hs]%Hconf Hread. rewrite <- Hhost in Hs.
    destruct (loadDynamicFile_returns (Some path) w2) as [loaded Hload].
    { intros q [= <-] _. exact Hread. }
    unfold reload, bind. rewrite Hload.
    by rewrite (assign_snapshot_installed _ snapshot).
Qed.

End Properties.

(** ** Further properties of the module *)

Section Further.
Context `{Runtime}.

(** *** Schema validation options *)

(** X1 — Options given by the caller are passed to the schema as they are,
    except that [allowUnknown] is set to true when they do not define it:
    an [allowUnknown] of the caller is kept, every other key is kept, and
    nothing else is added; in particular [abortEarly] is not defaulted. *)
Theorem getSchemaValidationOptions_explicit (options : ConfigModuleOptions)
    (given : Config) :
  validationOptions options = Some given →
  getSchemaValidationOptions options !! "allowUnknown" =
    Some (default (JBool true) (given !! "allowUnknown")) ∧
  ∀ k, k ≠ "allowUnknown" → getSchemaValidationOptions options !! k = given !! k.
Proof.
  intros Hgiven. unfold getSchemaValidationOptions. rewrite Hgiven.
  destruct (given !! "allowUnknown") as [v|] eqn:Hv; cbn.
  - split; [exact Hv | reflexivity].
  - split; [apply lookup_insert_eq|]. intros k Hk. by apply lookup_insert_ne.
Qed.

(** *** The process-environment sync, composed *)

Lemma with_env_with_env (e e' : strmap) (w : world) :
  with_env e (with_env e' w) = with_env e w.
Proof. reflexivity. Qed.

(** X2 — The sync is idempotent: running it a second time with the same
    configuration changes nothing more. *)
Theorem assignVariablesToProcess_idempotent (config : json) (w : world) :
  (assignVariablesToProcess config ;;; assignVariablesToProcess config) w =
  assignVariablesToProcess config w.
Proof.
  unfold bind.
  destruct (assignVariablesToProcess_env config w) as (penv & -> & Hk).
  destruct (assignVariablesToProcess_env config (with_env penv w))
    as (penv' & -> & Hk').
  rewrite with_env_with_env. f_equal. f_equal. apply map_eq. intros k.
  rewrite Hk'. cbn [env with_env]. rewrite Hk.
  destruct (env w !! k); [reflexivity|].
  destruct (isObject config && env_settable k); [|reflexivity].
  by destruct (own_entries config !! k).
Qed.


(** *** More on the env-file loader *)

Lemma loadEnvFile_loop_missing (options : ConfigModuleOptions) (paths : list string)
    (config : strmap) (w : world) :
  (∀ p, p ∈ paths → files w !! p = None) →
  loadEnvFile_loop options paths config w = (Ok config, w).
Proof.
  revert config. induction paths as [|p paths IH]; intros config Hnone; cbn.
  - reflexivity.
  - unfold bind at 1, loadEnvFile_step, bind, existsSync.
    rewrite (Hnone p) by apply list_elem_of_here.
    rewrite bool_decide_eq_false_2 by (by intros [? ?]). cbn.
    apply IH. intros q Hq. apply Hnone. by right.
Qed.

(** X4 — When none of the listed env files exists, [loadEnvFile] returns
    the empty mapping without raising and without writing anything, whether
    variable expansion is on or off. *)
Theorem loadEnvFile_no_file (options : ConfigModuleOptions) (w : world) :
  (∀ p, p ∈ envFilePaths options → files w !! p = None) →
  loadEnvFile options w = (Ok ∅, w).
Proof. intros Hnone. by apply loadEnvFile_loop_missing. Qed.

(** X5 — An env file that exists but cannot be read is not skipped: with
    the files listed before it readable or missing (and expansion off),
    [loadEnvFile] throws the read error of that file and returns no mapping,
    whatever the files listed after it hold. *)
Theorem loadEnvFile_unreadable (options : ConfigModuleOptions) (w : world)
    (before after : list string) (p : string) :
  expandVariables options = false →
  envFilePaths options = before ++ p :: after →
  (∀ q, q ∈ before → files w !! q ≠ Some Unreadable) →
  files w !! p = Some Unreadable →
  loadEnvFile options w = (Throw (SystemError p), w).
Proof.
  intros Hx Hpaths Hbefore Hp. unfold loadEnvFile.
  rewrite Hpaths, loadEnvFile_loop_app. unfold bind at 1.
  destruct (loadEnvFile_loop_plain options before ∅ w Hx Hbefore) as (acc & -> & _).
  cbn [loadEnvFile_loop]. unfold bind at 1, loadEnvFile_step, bind, existsSync.
  rewrite Hp, bool_decide_eq_true_2 by eauto. cbv beta iota.
  unfold readFileSync. by rewrite Hp.
Qed.

Lemma earliest_value_is_Some (fs : gmap string node) (paths : list string) (k : string) :
  is_Some (earliest_value fs paths k) ↔
  ∃ p, p ∈ paths ∧ is_Some (file_entries fs p !! k).
Proof.
  induction paths as [|q paths IH]; cbn.
  - split; [by intros [? ?] | by intros (p & []%elem_of_nil & _)].
  - assert (is_Some (file_entries fs q !! k) ∨ file_entries fs q !! k = None)
      as [Hq|Hq] by (destruct (file_entries fs q !! k); eauto).
    + split; [intros _; exists q; split; [apply list_elem_of_here | done]|].
      intros _. unfold file_entries in Hq.
      destruct (fs !! q) as [[content|]|]; try (rewrite lookup_empty in Hq; by destruct Hq).
      destruct (dotenv_parse content !! k); [eauto | by destruct Hq].
    + assert (match fs !! q with
              | Some (Readable content) =>
                  match dotenv_parse content !! k with
                  | Some v => Some v
                  | None => earliest_value fs paths k
                  end
              | _ => earliest_value fs paths k
              end = earliest_value fs paths k) as ->.
      { unfold file_entries in Hq. destruct (fs !! q) as [[content|]|]; try done.
        by rewrite Hq. }
      rewrite IH. split.
      * intros (p & Hin & Hp). exists p. split; [by right | done].
      * intros (p & [->|Hin]%elem_of_cons & Hp).
        -- rewrite Hq in Hp. by destruct Hp.
        -- eauto.
Qed.

(** X6 — No key is lost and none is invented: with the listed paths
    readable where they exist (expansion off), a key is defined in the
    mapping [loadEnvFile] returns exactly when some listed file that exists
    defines it. *)
Theorem loadEnvFile_keys (options : ConfigModuleOptions) (w : world) :
  expandVariables options = false →
  (∀ p, p ∈ envFilePaths options → files w !! p ≠ Some Unreadable) →
  ∃ merged, loadEnvFile options w = (Ok merged, w) ∧
    ∀ k, is_Some (merged !! k) ↔
         ∃ p, p ∈ envFilePaths options ∧ is_Some (file_entries (files w) p !! k).
Proof.
  intros Hx Hread. unfold loadEnvFile.
  destruct (loadEnvFile_loop_plain options (envFilePaths options) ∅ w Hx Hread)
    as (merged & Hrun & Hm).
  exists merged. split; [exact Hrun|]. intros k.
  rewrite Hm, lookup_empty. apply earliest_value_is_Some.
Qed.

Lemma earliest_value_app (fs : gmap string node) (ps qs : list string) (k : string) :
  earliest_value fs (ps ++ qs) k =
  match earliest_value fs ps k with
  | Some v => Some v
  | None => earliest_value fs qs k
  end.
Proof.
  induction ps as [|p ps IH]; cbn; [reflexivity|].
  destruct (fs !! p) as [[content|]|]; try apply IH.
  destruct (dotenv_parse content !! k); [reflexivity | apply IH].
Qed.

(** X7 — Listing a file again changes nothing: when a second list of paths
    is a first list followed by paths that already occur in it, [loadEnvFile]
    returns for both the same mapping (expansion off, paths readable where
    they exist). *)
Theorem loadEnvFile_repeated_paths (options options' : ConfigModuleOptions)
    (again : list string) (w : world) :
  expandVariables options = false →
  expandVariables options' = false →
  envFilePaths options' = envFilePaths options ++ again →
  (∀ p, p ∈ again → p ∈ envFilePaths options) →
  (∀ p, p ∈ envFilePaths options → files w !! p ≠ Some Unreadable) →
  loadEnvFile options' w = loadEnvFile options w.
Proof.
  intros Hx Hx' Hpaths Hagain Hread. unfold loadEnvFile.
  destruct (loadEnvFile_loop_plain options (envFilePaths options) ∅ w Hx Hread)
    as (merged & -> & Hm).
  destruct (loadEnvFile_loop_plain options' (envFilePaths options') ∅ w Hx')
    as (merged' & -> & Hm').
  { rewrite Hpaths. intros p [Hp|Hp]%elem_of_app; auto. }
  f_equal. f_equal. apply map_eq. intros k.
  rewrite Hm, Hm', !lookup_empty, Hpaths, earliest_value_app.
  destruct (earliest_value (files w) (envFilePaths options) k) as [v|] eqn:Hk;
    [reflexivity|].
  destruct (earliest_value (files w) again k) as [v|] eqn:Hk'; [|reflexivity].
  assert (is_Some (earliest_value (files w) (envFilePaths options) k)) as [? Hsome].
  { apply earliest_value_is_Some.
    destruct (proj1 (earliest_value_is_Some (files w) again k)) as (p & Hin & Hp);
      eauto. }
  congruence.
Qed.

(** *** More on the dynamic-file loader *)

(** X8 — Whatever the loader returns is truthy: it never hands [null],
    [false], [0] or the empty string to its callers, who spread the result
    and assign from it. *)
Theorem loadDynamicFile_truthy (path : option string) (w w' : world) (v : json) :
  loadDynamicFile path w = (Ok v, w') → truthy v = true.
Proof.
  destruct path as [p|].
  - destruct (string_truthy p) eqn:Hp.
    + destruct (files w !! p) as [[content|]|] eqn:Hf.
      * rewrite (loadDynamicFile_readable p content) by done.
        destruct (JSON_parse content) as [j|]; cbn zeta.
        -- destruct (truthy (or_else (json_data j) j)) eqn:Ht;
             intros [= <- _]; done.
        -- intros [= <- _]. reflexivity.
      * rewrite loadDynamicFile_unreadable by done. discriminate.
      * rewrite loadDynamicFile_absent by (right; done). by intros [= <- _].
    + rewrite loadDynamicFile_absent by (left; done). by intros [= <- _].
  - rewrite loadDynamicFile_absent by done. by intros [= <- _].
Qed.

(** The loader reads the files and nothing else of the world. *)
Lemma loadDynamicFile_files (path : option string) (w1 w2 : world) :
  files w1 = files w2 →
  fst (loadDynamicFile path w1) = fst (loadDynamicFile path w2).
Proof.
  intros Hfiles. destruct path as [p|].
  - destruct (string_truthy p) eqn:Hp.
    + destruct (files w2 !! p) as [[content|]|] eqn:Hf.
      * rewrite !(loadDynamicFile_readable p content) by (rewrite ?Hfiles; done).
        reflexivity.
      * rewrite !loadDynamicFile_unreadable by (rewrite ?Hfiles; done).
        reflexivity.
      * rewrite !loadDynamicFile_absent by (right; rewrite ?Hfiles; done).
        reflexivity.
    + rewrite !loadDynamicFile_absent by (left; done). reflexivity.
  - rewrite !loadDynamicFile_absent by done. reflexivity.
Qed.

(** *** More on startup *)

(** The gate writes [process.env] only, and only keys that were not there. *)
Lemma validation_gate_env (options : ConfigModuleOptions) (config : Config)
    (w w' : world) (r : result (option Config)) :
  validation_gate options config w = (r, w') →
  files w' = files w ∧ host w' = host w ∧
  ∀ k v, env w !! k = Some v → env w' !! k = Some v.
Proof.
  assert (∀ (c : Config) (A : Type) (a : A) (r' : result A) w0,
            (assignVariablesToProcess (JObj c) ;;; ret a) w0 = (r', w') →
            files w' = files w0 ∧ host w' = host w0 ∧
            ∀ k v, env w0 !! k = Some v → env w' !! k = Some v) as Hsync.
  { intros c A a r' w0. unfold bind.
    destruct (assignVariablesToProcess_env (JObj c) w0) as (penv & -> & Hpenv).
    unfold ret. intros [= _ <-]. cbn. repeat split.
    intros k v Hk. by rewrite Hpenv, Hk. }
  unfold validation_gate.
  destruct (validate options) as [f|].
  - unfold bind at 1, lift. destruct (f config) as [v|e].
    + apply Hsync.
    + intros [= _ <-]. done.
  - destruct (validationSchema options) as [schema|].
    + destruct (vr_error _) as [message|].
      * unfold throw. intros [= _ <-]. done.
      * apply Hsync.
    + apply Hsync.
Qed.

(** X9 — Without variable expansion, [forRoot] never changes or removes a
    variable that [process.env] already holds, and it writes neither the
    files nor the host; this holds whether it returns or throws. *)
Theorem forRoot_keeps_process_env (options : ConfigModuleOptions) (w w' : world)
    (r : result DynamicModule) :
  expandVariables options = false →
  forRoot options w = (r, w') →
  files w' = files w ∧ host w' = host w ∧
  ∀ k v, env w !! k = Some v → env w' !! k = Some v.
Proof.
  intros Hx. unfold forRoot, bind.
  destruct (startup_config options w) as [[config|e] w1] eqn:Hstart;
    apply startup_config_frame in Hstart as (Hf & Hh & He); specialize (He Hx).
  - destruct (validation_gate options config w1) as [[snapshot|e] w2] eqn:Hgate;
      apply validation_gate_env in Hgate as (Hf2 & Hh2 & He2).
    + unfold ret. intros [= _ <-]. repeat split; try congruence.
      intros k v Hk. apply He2. by rewrite He.
    + intros [= _ <-]. repeat split; try congruence.
      intros k v Hk. apply He2. by rewrite He.
  - intros [= _ <-]. repeat split; try congruence.
Qed.

(** X10 — After a successful [forRoot], every key of the configuration that
    was synced (the validator's output when there is a validator, the merged
    configuration otherwise), under a name the sync can set, is defined in
    [process.env]: with the value it had there when the merge was made, or
    else with the string form of the configured value.  Under a name that
    [process.env] inherits or refuses, a key that was not there is not there
    afterwards either. *)
Theorem forRoot_syncs_every_key (options : ConfigModuleOptions) (w w1 w' : world)
    (config : Config) (dm : DynamicModule) :
  startup_config options w = (Ok config, w1) →
  forRoot options w = (Ok dm, w') →
  ∀ k, env w' !! k =
       match env w1 !! k with
       | Some prior => Some prior
       | None =>
           if env_settable k
           then (λ v, env_string (Some v)) <$>
                  default config (validatedEnvConfigLoader dm) !! k
           else None
       end.
Proof.
  intros Hstart. unfold forRoot, bind. rewrite Hstart.
  assert (∀ (c : Config) (a : option Config) (r' : result (option Config)) w2,
            (assignVariablesToProcess (JObj c) ;;; ret a) w1 = (r', w2) →
            r' = Ok a ∧
            ∀ k, env w2 !! k =
                 match env w1 !! k with
                 | Some prior => Some prior
                 | None =>
                     if env_settable k
                     then (λ v, env_string (Some v)) <$> c !! k
                     else None
                 end) as Hsync.
  { intros c a r' w2. unfold bind.
    destruct (assignVariablesToProcess_env (JObj c) w1) as (penv & -> & Hpenv).
    unfold ret. intros [= <- <-]. split; [reflexivity|]. intros k. cbn.
    by rewrite Hpenv. }
  destruct (validation_gate options config w1) as [[snapshot|e] w2] eqn:Hgate;
    [|discriminate].
  unfold ret. intros [= <- <-]. cbn.
  unfold validation_gate in Hgate.
  destruct (validate options) as [f|].
  - unfold bind at 1, lift in Hgate. destruct (f config) as [v|e]; [|discriminate].
    apply Hsync in Hgate as [[= ->] Hk]. exact Hk.
  - destruct (validationSchema options) as [schema|].
    + destruct (vr_error _) as [message|]; [discriminate|].
      apply Hsync in Hgate as [[= ->] Hk]. exact Hk.
    + apply Hsync in Hgate as [[= ->] Hk]. exact Hk.
Qed.

(** X11 — A value of the dynamic file overrides the process environment in
    the merged configuration only: for a key that both define, the
    configuration handed to validation holds the dynamic value, while
    [process.env] still holds its own value after [forRoot], returned or
    thrown. *)
Theorem dynamic_override_stays_out_of_process_env (options : ConfigModuleOptions)
    (w w1 w' : world) (E : strmap) (D v : json) (k prior : string)
    (r : result DynamicModule) :
  ignoreEnvVars options = false →
  env_file_config options w = (Ok E, w1) →
  loadDynamicFile (dynamicConfigPath options) w1 = (Ok D, w1) →
  env w1 !! k = Some prior →
  own_entries D !! k = Some v →
  forRoot options w = (r, w') →
  (∃ merged, startup_config options w = (Ok merged, w1) ∧ merged !! k = Some v) ∧
  env w' !! k = Some prior.
Proof.
  intros Hvars HE HD Hprior Hv Hroot.
  assert (∃ merged, startup_config options w = (Ok merged, w1) ∧ merged !! k = Some v)
    as (merged & Hstart & Hk).
  { unfold startup_config, bind. rewrite HE, HD, Hvars. cbn.
    unfold process_env, ret. eexists. split; [reflexivity|].
    by rewrite Object_assign_lookup, Hv. }
  split; [eauto|].
  unfold forRoot, bind in Hroot. rewrite Hstart in Hroot.
  destruct (validation_gate options merged w1) as [[snapshot|e] w2] eqn:Hgate;
    apply validation_gate_env in Hgate as (_ & _ & He);
    unfold ret in Hroot; injection Hroot as _ <-; by apply He.
Qed.

(** X12 — A dynamic path that exists and cannot be read aborts startup:
    once the env files are loaded, [forRoot] throws the read error, before
    validation and before the sync, and no module is instantiated; this is
    so even with [ignoreEnvVars] set, where the dynamic values would not be
    used. *)
Theorem forRoot_unreadable_dynamic_file (options : ConfigModuleOptions)
    (w w1 : world) (E : strmap) (p : string) :
  env_file_config options w = (Ok E, w1) →
  dynamicConfigPath options = Some p →
  string_truthy p = true →
  files w !! p = Some Unreadable →
  forRoot options w = (Throw (SystemError p), w1) ∧
  bootstrap options w = (Throw (SystemError p), w1).
Proof.
  intros HE Hpath Hp Hf.
  assert (forRoot options w = (Throw (SystemError p), w1)) as Hroot.
  { unfold forRoot, startup_config, bind. rewrite HE, Hpath.
    apply env_file_config_frame in HE as (Hfiles & _).
    rewrite loadDynamicFile_unreadable by (rewrite ?Hfiles; done).
    reflexivity. }
  split; [exact Hroot|]. unfold bootstrap, bind. by rewrite Hroot.
Qed.

(** X13 — A bootstrap that succeeds with a validator leaves under the
    reserved key of the host exactly what the validator returned for the
    merged configuration: the result of the custom function, or the [value]
    of the schema, which reported no error.  Without a validator the reserved
    key is left as it was. *)
Theorem bootstrap_installs_validated (options : ConfigModuleOptions)
    (w w1 w' : world) (config : Config) (this : ConfigModule) :
  startup_config options w = (Ok config, w1) →
  bootstrap options w = (Ok this, w') →
  match validate options, validationSchema options with
  | Some f, _ => ∃ v, f config = Ok v ∧ validated (host w') = Some v
  | None, Some schema =>
      let r := schema config (getSchemaValidationOptions options) in
      vr_error r = None ∧ validated (host w') = Some (vr_value r)
  | None, None => validated (host w') = validated (host w)
  end.
Proof.
  intros Hstart. unfold bootstrap, forRoot, bind. rewrite Hstart.
  pose proof (startup_config_frame _ _ _ _ Hstart) as (_ & Hh1 & _).
  destruct (validation_gate options config w1) as [[snapshot|e] w2] eqn:Hgate;
    [|discriminate].
  pose proof (validation_gate_env _ _ _ _ _ Hgate) as (_ & Hh2 & _).
  unfold ret.
  destruct (instantiate_host
              {| validatedEnvConfigLoader := snapshot;
                 DYNAMIC_CONFIG_PATH := dynamicConfigPath options |} w2)
    as (this' & -> & _).
  cbn [validatedEnvConfigLoader]. intros [= _ <-].
  unfold validation_gate in Hgate.
  destruct (validate options) as [f|].
  - unfold bind at 1, lift in Hgate. destruct (f config) as [v|e]; [|discriminate].
    unfold bind in Hgate.
    destruct (assignVariablesToProcess_frame (JObj v) w1) as [penv Hrun].
    rewrite Hrun in Hgate. unfold ret in Hgate. injection Hgate as <- _.
    exists v. split; reflexivity.
  - destruct (validationSchema options) as [schema|].
    + cbn zeta. destruct (vr_error _) as [message|] eqn:Herr; [discriminate|].
      unfold bind in Hgate.
      match type of Hgate with
      | context [assignVariablesToProcess ?c w1] =>
          destruct (assignVariablesToProcess_frame c w1) as [penv Hrun]
      end.
      rewrite Hrun in Hgate. unfold ret in Hgate. injection Hgate as <- _.
      split; reflexivity.
    + unfold bind in Hgate.
      destruct (assignVariablesToProcess_frame (JObj config) w1) as [penv Hrun].
      rewrite Hrun in Hgate. unfold ret in Hgate. injection Hgate as <- _.
      congruence.
Qed.

(** X14 — A bootstrap that succeeds starts a watcher exactly when a
    non-empty dynamic path was given, and on that path; with no path, or the
    empty string, the instance has no watcher and every event leaves the
    world as it is. *)
Theorem bootstrap_watcher (options : ConfigModuleOptions) (w w' : world)
    (this : ConfigModule) :
  bootstrap options w = (Ok this, w') →
  watcher this =
    match dynamicConfigPath options with
    | Some p => if string_truthy p then Some p else None
    | None => None
    end ∧
  (watcher this = None → ∀ ev path w0, emit this ev path w0 = (Ok tt, w0)).
Proof.
  unfold bootstrap, forRoot, bind.
  destruct (startup_config options w) as [[config|e] w1]; [|discriminate].
  destruct (validation_gate options config w1) as [[snapshot|e] w2]; [|discriminate].
  unfold ret.
  destruct (instantiate_host
              {| validatedEnvConfigLoader := snapshot;
                 DYNAMIC_CONFIG_PATH := dynamicConfigPath options |} w2)
    as (this' & -> & Hwatch).
  intros [= <- _]. split; [exact Hwatch|].
  intros Hnone ev path w0. unfold emit. by rewrite Hnone.
Qed.

(** *** More on the watcher *)

(** What the reload callback can do: throw and change nothing, or assign the
    loaded mapping onto a snapshot that is installed. *)
Lemma reload_outcome (path : string) (w w' : world) (r : result unit) :
  reload path w = (r, w') →
  (w' = w ∧ (r = Ok tt → ∃ snapshot, validated (host w) = Some snapshot)) ∨
  ∃ loaded snapshot,
    loadDynamicFile (Some path) w = (Ok loaded, w) ∧
    validated (host w) = Some snapshot ∧
    r = Ok tt ∧
    w' = with_host
           (with_snapshot_proto
              (Object_assign_set snapshot (snapshot_proto (host w))
                 (own_entries loaded)).2
              (with_validated
                 (Some (Object_assign_set snapshot (snapshot_proto (host w))
                          (own_entries loaded)).1)
                 (host w))) w.
Proof.
  unfold reload, bind.
  destruct (loadDynamicFile (Some path) w) as [[loaded|e] w1] eqn:Hload;
    pose proof (loadDynamicFile_world _ _ _ _ Hload) as ->.
  - destruct (validated (host w)) as [snapshot|] eqn:Hs.
    + rewrite (assign_snapshot_installed loaded snapshot) by done.
      intros [= <- <-]. right. exists loaded, snapshot. done.
    + rewrite assign_snapshot_undefined by done.
      intros [= <- <-]. left. split; [done | discriminate].
  - intros [= <- <-]. left. split; [done | discriminate].
Qed.

(** X15 — A file event changes nothing but the snapshot: the files, the
    registered partials and [process.env] are as before, so values that
    were synced to [process.env] at startup are not refreshed by a reload;
    and the reserved key stays defined or undefined as it was. *)
Theorem watcher_event_frame (this : ConfigModule) (ev : fs_event) (path : string)
    (w w' : world) (r : result unit) :
  emit this ev path w = (r, w') →
  files w' = files w ∧ env w' = env w ∧
  partials (host w') = partials (host w) ∧
  (is_Some (validated (host w')) ↔ is_Some (validated (host w))).
Proof.
  intros Hemit.
  destruct (emit_cases this ev path) as [Heq|Heq]; rewrite Heq in Hemit.
  - apply reload_outcome in Hemit
      as [[-> _]|(loaded & snapshot & _ & Hs & _ & ->)]; [done|].
    cbn. rewrite Hs. repeat split; eauto.
  - unfold ret in Hemit. injection Hemit as _ <-. done.
Qed.

(** X16 — A reload never removes a key: every key the snapshot had before
    an event it still has afterwards, also when the new content of the
    dynamic file no longer mentions it. *)
Theorem watcher_event_keeps_keys (this : ConfigModule) (ev : fs_event)
    (path : string) (w w' : world) (r : result unit) (before : Config) :
  emit this ev path w = (r, w') →
  validated (host w) = Some before →
  ∃ after, validated (host w') = Some after ∧
           ∀ k, is_Some (before !! k) → is_Some (after !! k).
Proof.
  intros Hemit Hbefore.
  destruct (emit_cases this ev path) as [Heq|Heq]; rewrite Heq in Hemit.
  - apply reload_outcome in Hemit
      as [[-> _]|(loaded & snapshot & _ & Hs & _ & ->)]; [eauto|].
    rewrite Hbefore in Hs. injection Hs as <-.
    eexists. split; [reflexivity|]. intros k Hk.
    by apply Object_assign_set_keeps.
  - unfold ret in Hemit. injection Hemit as _ <-. eauto.
Qed.

(** X17 — Reloading is idempotent for a dynamic file whose mapping has no
    key [__proto__]: an event delivered a second time, with the files
    unchanged, has the same outcome and leaves the world as the first
    delivery left it.  (A key [__proto__] can make the second delivery
    differ: the first may replace the prototype of the snapshot, and the
    second then finds another object to assign to.) *)
Theorem watcher_event_idempotent (this : ConfigModule) (ev : fs_event)
    (path : string) (w w' : world) (r : result unit) :
  (∀ loaded, loadDynamicFile (Some path) w = (Ok loaded, w) →
             own_entries loaded !! "__proto__" = None) →
  emit this ev path w = (r, w') →
  emit this ev path w' = (r, w').
Proof.
  intros Hplain Hemit.
  destruct (emit_cases this ev path) as [Heq|Heq]; rewrite Heq in *.
  - pose proof Hemit as Hfirst.
    apply reload_outcome in Hemit
      as [[-> _]|(loaded & snapshot & Hload & Hs & -> & ->)]; [exact Hfirst|].
    specialize (Hplain loaded Hload).
    rewrite Object_assign_set_plain by exact Hplain. cbn [fst snd].
    rewrite with_snapshot_proto_same.
    set (w1 := with_host _ w).
    assert (loadDynamicFile (Some path) w1 = (Ok loaded, w1)) as Hload1.
    { destruct (loadDynamicFile (Some path) w1) as [r1 w2] eqn:Hrun.
      pose proof (loadDynamicFile_world _ _ _ _ Hrun) as ->.
      pose proof (loadDynamicFile_files (Some path) w1 w eq_refl) as Hfst.
      rewrite Hrun, Hload in Hfst. cbn in Hfst. by rewrite Hfst. }
    unfold reload, bind. rewrite Hload1.
    rewrite (assign_snapshot_plain loaded
               (Object_assign snapshot (own_entries loaded)))
      by (reflexivity || exact Hplain).
    f_equal. unfold w1, with_host, with_validated. cbn. f_equal. f_equal. f_equal.
    apply map_eq. intros k. rewrite !Object_assign_lookup.
    by destruct (own_entries loaded !! k).
  - unfold ret in *. by injection Hemit as <- <-.
Qed.

(** X18 — A reload finds nothing to apply, and leaves the whole world as
    it is, when the dynamic file is gone (an event for a path that no longer
    exists) or holds a falsy JSON value such as [null]: together with
    malformed text these are the cases in which the loader answers with the
    empty mapping. *)
Theorem watcher_reload_nothing_to_apply (this : ConfigModule) (ev : fs_event)
    (path : string) (w w' : world) (r : result unit) :
  source_absent (Some path) w ∨
  (∃ content j, string_truthy path = true ∧
     files w !! path = Some (Readable content) ∧
     JSON_parse content = Some j ∧ truthy j = false) →
  emit this ev path w = (r, w') →
  w' = w ∧ loadDynamicFile (Some path) w = (Ok (JObj ∅), w).
Proof.
  intros Hcase Hemit.
  assert (loadDynamicFile (Some path) w = (Ok (JObj ∅), w)) as Hload.
  { destruct Hcase as [Habsent|(content & j & Hp & Hf & Hparse & Hj)].
    - by apply loadDynamicFile_absent.
    - rewrite (loadDynamicFile_readable path content), Hparse by done.
      cbn zeta. unfold or_else.
      destruct (json_data j) as [d|] eqn:Hd.
      + apply json_data_truthy in Hd. congruence.
      + by rewrite Hj. }
  split; [|exact Hload].
  destruct (emit_cases this ev path) as [Heq|Heq]; rewrite Heq in Hemit.
  - apply reload_outcome in Hemit
      as [[-> _]|(loaded & snapshot & Hload' & Hs & _ & ->)]; [done|].
    rewrite Hload in Hload'. injection Hload' as <-.
    cbn [own_entries]. rewrite Object_assign_set_plain by apply lookup_empty.
    cbn [fst snd]. rewrite with_snapshot_proto_same, Object_assign_empty, <- Hs.
    by rewrite with_validated_same, with_host_same.
  - unfold ret in Hemit. by injection Hemit as _ <-.
Qed.

(** X19 — Reloads accumulate: after two events, between which the files
    changed, a key of the snapshot other than [__proto__] holds the value of
    the second loaded mapping if that has the key, else the value of the
    first loaded mapping if that has it, else the value it had at the
    start. *)
Theorem watcher_two_reloads (this : ConfigModule) (ev1 ev2 : fs_event)
    (path : string) (w : world) (files2 : gmap string node)
    (snapshot : Config) (first second : json) :
  is_Some (watcher this) →
  ev1 = add ∨ ev1 = change →
  ev2 = add ∨ ev2 = change →
  validated (host w) = Some snapshot →
  loadDynamicFile (Some path) w = (Ok first, w) →
  loadDynamicFile (Some path) (with_files files2 w) = (Ok second, with_files files2 w) →
  ∃ w1 w2 final,
    emit this ev1 path w = (Ok tt, w1) ∧
    emit this ev2 path (with_files files2 w1) = (Ok tt, w2) ∧
    validated (host w2) = Some final ∧
    ∀ k, k ≠ "__proto__" →
         final !! k =
         match own_entries second !! k with
         | Some v => Some v
         | None =>
             match own_entries first !! k with
             | Some v => Some v
             | None => snapshot !! k
             end
         end.
Proof.
  intros Hwatch Hev1 Hev2 Hs Hfirst Hsecond.
  rewrite !emit_reload by done.
  assert (∃ w1, reload path w = (Ok tt, w1) ∧ files w1 = files w ∧
                validated (host w1) =
                  Some (Object_assign_set snapshot (snapshot_proto (host w))
                          (own_entries first)).1) as (w1 & Hrun1 & Hfiles1 & Hs1).
  { eexists. split; [|split].
    - unfold reload, bind. rewrite Hfirst.
      by apply (assign_snapshot_installed first snapshot).
    - reflexivity.
    - reflexivity. }
  assert (loadDynamicFile (Some path) (with_files files2 w1) =
          (Ok second, with_files files2 w1)) as Hload2.
  { destruct (loadDynamicFile (Some path) (with_files files2 w1)) as [r2 w3] eqn:Hrun.
    pose proof (loadDynamicFile_world _ _ _ _ Hrun) as ->.
    pose proof (loadDynamicFile_files (Some path) (with_files files2 w1)
                  (with_files files2 w) eq_refl) as Hfst.
    rewrite Hrun, Hsecond in Hfst. cbn in Hfst. by rewrite Hfst. }
  exists w1. eexists. eexists. split; [exact Hrun1|]. split; [|split].
  - unfold reload, bind. rewrite Hload2.
    by apply (assign_snapshot_installed second _ (with_files files2 w1) Hs1).
  - reflexivity.
  - intros k Hk. by rewrite !Object_assign_set_lookup.
Qed.

(** *** The custom function before the schema *)

Lemma loadEnvFile_loop_ext (options options' : ConfigModuleOptions)
    (paths : list string) (config : strmap) (w : world) :
  expandVariables options = expandVariables options' →
  loadEnvFile_loop options paths config w = loadEnvFile_loop options' paths config w.
Proof.
  intros Hx. revert config w. induction paths as [|p paths IH]; intros config w; cbn.
  - reflexivity.
  - unfold bind.
    assert (loadEnvFile_step options p config w = loadEnvFile_step options' p config w)
      as -> by (unfold loadEnvFile_step; by rewrite Hx).
    destruct (loadEnvFile_step options' p config w) as [[c|e] w1];
      [apply IH | reflexivity].
Qed.

(** X20 — When a custom [validate] function is given, the schema and the
    validation options play no part: two sets of options that agree on the
    function and on everything that concerns loading make [forRoot] behave
    in the same way, whatever schema and validation options each carries. *)
Theorem forRoot_validate_shadows_schema (options options' : ConfigModuleOptions)
    (f : Config → result Config) (w : world) :
  validate options = Some f →
  validate options' = Some f →
  ignoreEnvFile options = ignoreEnvFile options' →
  ignoreEnvVars options = ignoreEnvVars options' →
  envFilePath options = envFilePath options' →
  expandVariables options = expandVariables options' →
  dynamicConfigPath options = dynamicConfigPath options' →
  forRoot options w = forRoot options' w.
Proof.
  intros Hv Hv' Hfile Hvars Hpath Hx Hdyn.
  assert (startup_config options w = startup_config options' w) as Hstart.
  { unfold startup_config, bind, env_file_config, loadEnvFile, envFilePaths.
    rewrite Hfile, Hvars, Hpath, Hdyn.
    destruct (ignoreEnvFile options'); [reflexivity|].
    by rewrite (loadEnvFile_loop_ext options options'). }
  unfold forRoot, bind. rewrite Hstart, Hdyn.
  destruct (startup_config options' w) as [[config|e] w1]; [|reflexivity].
  assert (validation_gate options config w1 = validation_gate options' config w1)
    as -> by (unfold validation_gate; by rewrite Hv, Hv').
  reflexivity.
Qed.

End Further.

(** ** The properties on the sample data *)

#[local] Existing Instance Sample.runtime.

Ltac run := vm_compute; reflexivity.

Lemma startup_config_precedence_witness :
  ∃ merged,
    startup_config Sample.dynamic_options
      (Sample.app_world (Readable (Sample.json_text "8888"))) =
    (Ok merged, Sample.app_world (Readable (Sample.json_text "8888"))) ∧
    merged !! "PORT" = Some (JNum 8888) ∧
    merged !! "HOST" = Some (JStr "localhost") ∧
    merged !! "HOME" = Some (JStr "/root").
Proof.
  destruct (startup_config_precedence Sample.dynamic_options
              (Sample.app_world (Readable (Sample.json_text "8888"))) eq_refl
              {[ "PORT" := "5000"; "HOST" := "example" ]}
              (Sample.app_world (Readable (Sample.json_text "8888")))
              (JObj {[ "PORT" := JNum 8888 ]})
              (Sample.app_world (Readable (Sample.json_text "8888"))))
    as (merged & Hrun & Hk).
  - run.
  - run.
  - exists merged. split; [exact Hrun|]. rewrite !Hk. vm_compute.
    repeat split; reflexivity.
Defined.

(** The sync on the sample world: [PORT] is new and is written as a string,
    [HOST] is already exported and keeps the exported value. *)
Example assignVariablesToProcess_sample :
  ∃ w',
    assignVariablesToProcess (JObj Sample.installed)
      (Sample.app_world Unreadable) = (Ok tt, w') ∧
    env w' !! "PORT" = Some "8888" ∧ env w' !! "HOST" = Some "localhost".
Proof. eexists. repeat split; run. Qed.

(** The sync and the names [process.env] inherits or refuses: [PORT] is
    written, [toString] counts as present and is skipped, and the write under
    [A=B] is lost. *)
Example assignVariablesToProcess_odd_names :
  ∃ w',
    assignVariablesToProcess (JObj Scenario.odd_config)
      (Sample.app_world Unreadable) = (Ok tt, w') ∧
    env w' !! "PORT" = Some "8888" ∧ env w' !! "toString" = None ∧
    env w' !! "A=B" = None.
Proof. eexists. repeat split; run. Qed.

(** C1, as stated, fails: with [ignoreEnvVars] set, [HOME] is defined by the
    process environment and [PORT] by the dynamic file, yet the startup
    configuration has no [HOME] and takes [PORT] from the env file. *)
Lemma ignoreEnvVars_breaks_precedence :
  ¬ merged_by_precedence Sample.env_only_options
      (Sample.app_world (Readable (Sample.json_text "8888"))).
Proof.
  intros Hclaim.
  destruct (Hclaim {[ "PORT" := "5000"; "HOST" := "example" ]}
              (Sample.app_world (Readable (Sample.json_text "8888")))
              (JObj {[ "PORT" := JNum 8888 ]})
              (Sample.app_world (Readable (Sample.json_text "8888"))))
    as (merged & Hrun & Hk); [run | run |].
  assert (startup_config Sample.env_only_options
            (Sample.app_world (Readable (Sample.json_text "8888"))) =
          (Ok (JStr <$> ({[ "PORT" := "5000"; "HOST" := "example" ]} : strmap)),
           Sample.app_world (Readable (Sample.json_text "8888")))) as Hreal by run.
  rewrite Hreal in Hrun. injection Hrun as <-.
  specialize (Hk "HOME"). vm_compute in Hk. discriminate Hk.
Qed.

Lemma loadEnvFile_earliest_wins_witness :
  ∃ merged acc : strmap,
    loadEnvFile Sample.two_files_options (Sample.app_world Unreadable) =
    (Ok merged, Sample.app_world Unreadable) ∧
    merged !! "PORT" = Some "4000" ∧ merged !! "HOST" = Some "example" ∧
    loadEnvFile_loop Sample.two_files_options ["/app/.env.local"] ∅
      (Sample.app_world Unreadable) = (Ok acc, Sample.app_world Unreadable) ∧
    acc !! "HOST" = None.
Proof.
  destruct (loadEnvFile_earliest_wins Sample.two_files_options
              (Sample.app_world Unreadable) eq_refl)
    as (merged & Hrun & Hk & Hfill).
  - intros p [->|[->|[]%elem_of_nil]%elem_of_cons]%elem_of_cons;
      vm_compute; discriminate.
  - destruct (Hfill ["/app/.env.local"] "/app/.env" [] eq_refl)
      as (acc & acc' & Hacc & Hacc' & Hfilled).
    exists merged, acc. split; [exact Hrun|].
    rewrite !Hk. split; [reflexivity|]. split; [reflexivity|].
    split; [exact Hacc|].
    assert (loadEnvFile_loop Sample.two_files_options ["/app/.env.local"] ∅
              (Sample.app_world Unreadable) =
            (Ok {[ "PORT" := "4000" ]}, Sample.app_world Unreadable)) as Hreal by run.
    rewrite Hreal in Hacc. by injection Hacc as <-.
Defined.

(** C2, as stated, fails in two ways.  An env file that exists and cannot
    be read makes the loader throw instead of returning a mapping.  And with
    variable expansion on and [PORT] exported, the mapping holds for [PORT]
    the exported value, not the value of the one file that defines it. *)
Lemma loadEnvFile_earliest_wins_counterexample :
  ¬ earliest_wins Sample.two_files_options Scenario.locked_env_world ∧
  ¬ earliest_wins (H := Scenario.runtime) Scenario.expanding_options
      Scenario.exported_world.
Proof.
  split.
  - intros (merged & w' & Hrun & _).
    assert (loadEnvFile Sample.two_files_options Scenario.locked_env_world =
            (Throw (SystemError "/app/.env"), Scenario.locked_env_world))
      as Hreal by run.
    rewrite Hreal in Hrun. discriminate Hrun.
  - intros (merged & w' & Hrun & Hk).
    assert (∃ w1, loadEnvFile (H := Scenario.runtime) Scenario.expanding_options
                    Scenario.exported_world =
                  (Ok {[ "PORT" := "3000"; "HOST" := "example" ]}, w1))
      as [w1 Hreal] by (eexists; run).
    rewrite Hreal in Hrun. injection Hrun as <- _.
    specialize (Hk "PORT"). vm_compute in Hk. discriminate Hk.
Qed.

Example loadEnvFile_expansion_prefers_process_env :
  ∃ merged w',
    loadEnvFile (H := Scenario.runtime) Scenario.expanding_options
      Scenario.exported_world = (Ok merged, w') ∧
    merged !! "PORT" = Some "3000" ∧
    file_entries (H := Scenario.runtime) (files Scenario.exported_world)
      "/app/.env" !! "PORT" = Some "5000".
Proof. eexists _, _. repeat split; run. Qed.

Lemma loadDynamicFile_total_on_readable_witness :
  loads_without_raising (Some Sample.dynamic_path) (Sample.app_world (Readable "{")).
Proof.
  apply loadDynamicFile_total_on_readable.
  intros p [= <-] _. vm_compute. discriminate.
Defined.

(** C3, as stated, fails: the dynamic path exists and cannot be read, and the
    loader throws. *)
Lemma loadDynamicFile_raises_on_unreadable :
  loadDynamicFile (Some Sample.dynamic_path) (Sample.app_world Unreadable) =
    (Throw (SystemError Sample.dynamic_path), Sample.app_world Unreadable) ∧
  ¬ loads_without_raising (Some Sample.dynamic_path) (Sample.app_world Unreadable).
Proof.
  assert (loadDynamicFile (Some Sample.dynamic_path) (Sample.app_world Unreadable) =
          (Throw (SystemError Sample.dynamic_path), Sample.app_world Unreadable))
    as Hreal by run.
  split; [exact Hreal|].
  intros (v & Hrun & _). rewrite Hreal in Hrun. discriminate Hrun.
Qed.

Lemma loadDynamicFile_data_or_whole_witness :
  loadDynamicFile (Some Sample.dynamic_path)
    (Sample.app_world (Readable (Sample.json_text "8888"))) =
  (Ok (JObj {[ "PORT" := JNum 8888 ]}),
   Sample.app_world (Readable (Sample.json_text "8888"))).
Proof.
  rewrite (loadDynamicFile_data_or_whole Sample.dynamic_path
             (Sample.json_text "8888") (Sample.port_envelope 8888));
    [reflexivity | reflexivity | reflexivity | reflexivity].
Defined.

(** C4, as stated, fails twice: on [{"data":0}] the loader returns the whole
    object, not the [data] property [0]; on [null] it returns the empty
    mapping, not [null]. *)
Lemma loadDynamicFile_falsy_counterexample :
  ¬ returns_data_or_whole Sample.dynamic_path
      (Sample.app_world (Readable Sample.data_zero_text)) ∧
  ¬ returns_data_or_whole Sample.dynamic_path
      (Sample.app_world (Readable "null")).
Proof.
  split; intros Hclaim.
  - specialize (Hclaim Sample.data_zero_text Sample.data_zero eq_refl eq_refl eq_refl).
    vm_compute in Hclaim. discriminate Hclaim.
  - specialize (Hclaim "null" JNull eq_refl eq_refl eq_refl).
    vm_compute in Hclaim. discriminate Hclaim.
Qed.

Example loadDynamicFile_data_zero :
  loadDynamicFile (Some Sample.dynamic_path)
    (Sample.app_world (Readable Sample.data_zero_text)) =
  (Ok Sample.data_zero, Sample.app_world (Readable Sample.data_zero_text)).
Proof. run. Qed.

Example loadDynamicFile_null :
  loadDynamicFile (Some Sample.dynamic_path) (Sample.app_world (Readable "null")) =
  (Ok (JObj ∅), Sample.app_world (Readable "null")).
Proof. run. Qed.

Lemma forRoot_validation_failure_witness :
  forRoot Sample.schema_options
    (Sample.app_world (Readable (Sample.json_text "8888"))) =
  (Throw (Error ("Config validation error: " +:+ Sample.quoted "X" +:+ " is required")),
   Sample.app_world (Readable (Sample.json_text "8888"))).
Proof.
  destruct (forRoot_validation_failure Sample.schema_options
              (Sample.app_world (Readable (Sample.json_text "8888")))
              (Sample.app_world (Readable (Sample.json_text "8888")))
              {[ "PORT" := JNum 8888; "HOST" := JStr "localhost";
                 "HOME" := JStr "/root" ]}
              (Error ("Config validation error: " +:+ Sample.quoted "X"
                      +:+ " is required")))
    as (Hroot & _).
  - run.
  - apply (schema_fails _ _ Sample.requires_X (Sample.quoted "X" +:+ " is required"));
      [reflexivity | reflexivity | run].
  - exact Hroot.
Defined.

Lemma watcher_reload_assigns_witness :
  ∃ w' snapshot',
    emit {| watcher := Some Sample.dynamic_path |} change Sample.dynamic_path
      (Sample.running_world (Readable (Sample.json_text "9999"))) = (Ok tt, w') ∧
    validated (host w') = Some snapshot' ∧
    snapshot' !! "PORT" = Some (JNum 9999) ∧
    snapshot' !! "HOST" = Some (JStr "example") ∧
    w' = with_host (with_validated (Some snapshot')
                      (host (Sample.running_world (Readable (Sample.json_text "9999")))))
           (Sample.running_world (Readable (Sample.json_text "9999"))).
Proof.
  destruct (watcher_reload_assigns {| watcher := Some Sample.dynamic_path |}
              change Sample.dynamic_path
              (Sample.running_world (Readable (Sample.json_text "9999")))
              Sample.installed)
    as (loaded & w' & snapshot' & Hload & Hemit & _ & _ & _ & Hsnap & Hk & Hplain).
  - eauto.
  - by right.
  - reflexivity.
  - vm_compute. discriminate.
  - assert (loadDynamicFile (Some Sample.dynamic_path)
              (Sample.running_world (Readable (Sample.json_text "9999"))) =
            (Ok (JObj {[ "PORT" := JNum 9999 ]}),
             Sample.running_world (Readable (Sample.json_text "9999")))) as Hreal by run.
    rewrite Hreal in Hload. injection Hload as <-.
    exists w', snapshot'. split; [exact Hemit|]. split; [exact Hsnap|].
    rewrite !Hk by discriminate.
    split; [reflexivity|]. split; [reflexivity|].
    by apply Hplain.
Defined.

(** C7, as stated, fails in three ways.  Without a snapshot under the
    reserved key (a bootstrap without validation) the callback throws.  On a
    path that exists and cannot be read it throws before anything is
    assigned.  And a key [__proto__] of the loaded mapping does not become a
    key of the snapshot: the assignment replaces the prototype instead. *)
Lemma watcher_reload_assigns_counterexample :
  ¬ reload_overwrites {| watcher := Some Sample.dynamic_path |} change
      Sample.dynamic_path (Sample.app_world (Readable (Sample.json_text "9999"))) ∧
  ¬ reload_overwrites {| watcher := Some Sample.dynamic_path |} change
      Sample.dynamic_path (Sample.running_world Unreadable) ∧
  ¬ reload_overwrites (H := Scenario.runtime)
      {| watcher := Some Sample.dynamic_path |} change
      Sample.dynamic_path (Sample.running_world (Readable Scenario.proto_text)).
Proof.
  split; [|split].
  - intros (old & loaded & w' & Hold & _). vm_compute in Hold. discriminate Hold.
  - intros (old & loaded & w' & _ & Hload & _).
    vm_compute in Hload. discriminate Hload.
  - intros (old & loaded & w' & Hold & Hload & Hemit & Hafter).
    injection Hold as <-.
    assert (loadDynamicFile (H := Scenario.runtime) (Some Sample.dynamic_path)
              (Sample.running_world (Readable Scenario.proto_text)) =
            (Ok (JObj {[ "__proto__" := JObj {[ "PORT" := JNum 1 ]} ]}),
             Sample.running_world (Readable Scenario.proto_text))) as Hreal by run.
    rewrite Hreal in Hload. injection Hload as <-.
    assert (∃ w1, emit (H := Scenario.runtime)
                    {| watcher := Some Sample.dynamic_path |} change
                    Sample.dynamic_path
                    (Sample.running_world (Readable Scenario.proto_text)) =
                  (Ok tt, w1) ∧ validated (host w1) = Some Sample.installed)
      as (w1 & Hrun & Hsame) by (eexists; split; run).
    rewrite Hrun in Hemit. injection Hemit as <-.
    rewrite Hsame in Hafter.
    apply (f_equal (λ o : option Config, o ≫= (λ m, m !! "__proto__"))) in Hafter.
    vm_compute in Hafter. discriminate Hafter.
Qed.

(** The three events of the counterexample, run. *)
Example watcher_reload_throws_without_snapshot :
  emit {| watcher := Some Sample.dynamic_path |} change Sample.dynamic_path
    (Sample.app_world (Readable (Sample.json_text "9999"))) =
  (Throw TypeError, Sample.app_world (Readable (Sample.json_text "9999"))).
Proof. run. Qed.

Example watcher_reload_throws_on_unreadable :
  emit {| watcher := Some Sample.dynamic_path |} change Sample.dynamic_path
    (Sample.running_world Unreadable) =
  (Throw (SystemError Sample.dynamic_path), Sample.running_world Unreadable).
Proof. run. Qed.

Example watcher_reload_proto_key :
  ∃ w',
    emit (H := Scenario.runtime) {| watcher := Some Sample.dynamic_path |} change
      Sample.dynamic_path (Sample.running_world (Readable Scenario.proto_text)) =
    (Ok tt, w') ∧
    validated (host w') = Some Sample.installed ∧
    snapshot_proto (host w') = Some (JObj {[ "PORT" := JNum 1 ]}).
Proof. eexists. repeat split; run. Qed.

Lemma watcher_reload_failure_keeps_snapshot_witness :
  validated (host (snd (emit {| watcher := Some Sample.dynamic_path |} change
                          Sample.dynamic_path (Sample.running_world (Readable "{"))))) =
  Some Sample.installed.
Proof.
  destruct (emit {| watcher := Some Sample.dynamic_path |} change
              Sample.dynamic_path (Sample.running_world (Readable "{")))
    as [r w'] eqn:Hemit.
  destruct (watcher_reload_failure_keeps_snapshot
              {| watcher := Some Sample.dynamic_path |} change Sample.dynamic_path
              (Sample.running_world (Readable "{")) w' r) as (Hsnap & _).
  - left. exists Sample.dynamic_path, "{". repeat split; reflexivity.
  - exact Hemit.
  - exact Hsnap.
Defined.

Lemma watcher_reload_needs_validation_witness :
  ∃ this w1,
    bootstrap Sample.validated_options
      (Sample.app_world (Readable (Sample.json_text "8888"))) = (Ok this, w1) ∧
    validation_configured Sample.validated_options ∧
    fst (emit this change Sample.dynamic_path w1) = Ok tt.
Proof.
  destruct (bootstrap Sample.validated_options
              (Sample.app_world (Readable (Sample.json_text "8888"))))
    as [[this|e] w1] eqn:Hboot; [|vm_compute in Hboot; discriminate Hboot].
  exists this, w1. split; [reflexivity|].
  destruct (watcher_reload_needs_validation Sample.validated_options this
              (Sample.app_world (Readable (Sample.json_text "8888"))) w1 w1
              Sample.dynamic_path Sample.dynamic_path change
              Hboot eq_refl eq_refl eq_refl eq_refl (or_intror eq_refl))
    as (_ & _ & Hdoes).
  assert (validation_configured Sample.validated_options) as Hconf
    by (left; eauto).
  split; [exact Hconf|]. apply Hdoes; [exact Hconf|].
  vm_compute in Hboot. injection Hboot as _ <-. vm_compute. discriminate.
Defined.

(** The scenario of the end-to-end test, with a validator configured: the
    dynamic file holds [PORT] 8888 at startup and the snapshot shows it; the
    file is rewritten with 9999, the watcher reports [change], and the
    snapshot shows 9999. *)
Example dynamic_config_roundtrip :
  ∃ this w1 w2 before after,
    bootstrap Sample.validated_options
      (Sample.app_world (Readable (Sample.json_text "8888"))) = (Ok this, w1) ∧
    validated (host w1) = Some before ∧ before !! "PORT" = Some (JNum 8888) ∧
    emit this change Sample.dynamic_path
      (with_files (Sample.app_files (Readable (Sample.json_text "9999"))) w1) =
      (Ok tt, w2) ∧
    validated (host w2) = Some after ∧ after !! "PORT" = Some (JNum 9999).
Proof. eexists _, _, _, _, _. repeat split; run. Qed.

(** The same bootstrap without validation: the first [change] event throws. *)
Example watcher_reload_without_validation :
  ∃ this w1,
    bootstrap Sample.dynamic_options
      (Sample.app_world (Readable (Sample.json_text "8888"))) = (Ok this, w1) ∧
    emit this change Sample.dynamic_path w1 = (Throw TypeError, w1).
Proof. eexists _, _. split; run. Qed.

Lemma startup_config_ignoreEnvVars_witness :
  ∃ merged,
    startup_config Sample.env_only_options
      (Sample.app_world (Readable (Sample.json_text "8888"))) =
    (Ok merged, Sample.app_world (Readable (Sample.json_text "8888"))) ∧
    merged !! "PORT" = Some (JStr "5000") ∧ merged !! "HOME" = None.
Proof.
  destruct (startup_config_ignoreEnvVars Sample.env_only_options
              (Sample.app_world (Readable (Sample.json_text "8888")))
              (Sample.app_world (Readable (Sample.json_text "8888")))
              (Sample.app_world (Readable (Sample.json_text "8888")))
              {[ "PORT" := "5000"; "HOST" := "example" ]}
              (JObj {[ "PORT" := JNum 8888 ]}) eq_refl)
    as (Hrun & _).
  - run.
  - run.
  - eexists. split; [exact Hrun|]. vm_compute. split; reflexivity.
Defined.

(** ** The further properties on the sample data *)

Lemma getSchemaValidationOptions_explicit_witness :
  getSchemaValidationOptions Scenario.abort_early_options !! "allowUnknown" =
    Some (JBool true) ∧
  getSchemaValidationOptions Scenario.abort_early_options !! "abortEarly" =
    Some (JBool true).
Proof.
  destruct (getSchemaValidationOptions_explicit Scenario.abort_early_options
              Scenario.abort_early eq_refl) as [Hallow Hother].
  split; [rewrite Hallow; reflexivity|].
  rewrite Hother; [reflexivity | discriminate].
Defined.


Lemma loadEnvFile_no_file_witness :
  loadEnvFile Sample.two_files_options Scenario.bare_world =
  (Ok ∅, Scenario.bare_world).
Proof.
  apply loadEnvFile_no_file. intros p _. apply lookup_empty.
Defined.

Lemma loadEnvFile_unreadable_witness :
  loadEnvFile Sample.two_files_options Scenario.locked_env_world =
  (Throw (SystemError "/app/.env"), Scenario.locked_env_world).
Proof.
  apply (loadEnvFile_unreadable Sample.two_files_options Scenario.locked_env_world
           ["/app/.env.local"] [] "/app/.env").
  - reflexivity.
  - reflexivity.
  - intros q [->|[]%elem_of_nil]%elem_of_cons. vm_compute. discriminate.
  - run.
Defined.

Lemma loadEnvFile_keys_witness :
  ∃ merged : strmap,
    loadEnvFile Sample.two_files_options (Sample.app_world Unreadable) =
    (Ok merged, Sample.app_world Unreadable) ∧
    is_Some (merged !! "HOST") ∧ ¬ is_Some (merged !! "HOME").
Proof.
  destruct (loadEnvFile_keys Sample.two_files_options
              (Sample.app_world Unreadable) eq_refl) as (merged & Hrun & Hk).
  - intros p [->|[->|[]%elem_of_nil]%elem_of_cons]%elem_of_cons;
      vm_compute; discriminate.
  - exists merged. split; [exact Hrun|]. split.
    + apply Hk. exists "/app/.env". split; [by right; left|].
      vm_compute. eauto.
    + intros (p & [->|[->|[]%elem_of_nil]%elem_of_cons]%elem_of_cons & Hp)%Hk;
        vm_compute in Hp; by destruct Hp.
Defined.

Lemma loadEnvFile_repeated_paths_witness :
  loadEnvFile Scenario.repeated_options (Sample.app_world Unreadable) =
  loadEnvFile Sample.two_files_options (Sample.app_world Unreadable).
Proof.
  apply (loadEnvFile_repeated_paths Sample.two_files_options
           Scenario.repeated_options ["/app/.env.local"]).
  - reflexivity.
  - reflexivity.
  - reflexivity.
  - intros p [->|[]%elem_of_nil]%elem_of_cons. by left.
  - intros p [->|[->|[]%elem_of_nil]%elem_of_cons]%elem_of_cons;
      vm_compute; discriminate.
Defined.

Lemma loadDynamicFile_truthy_witness :
  ∃ v,
    loadDynamicFile (Some Sample.dynamic_path) (Sample.app_world (Readable "null")) =
    (Ok v, Sample.app_world (Readable "null")) ∧
    truthy v = true.
Proof.
  exists (JObj ∅).
  assert (loadDynamicFile (Some Sample.dynamic_path)
            (Sample.app_world (Readable "null")) =
          (Ok (JObj ∅), Sample.app_world (Readable "null"))) as Hrun by run.
  split; [exact Hrun|].
  exact (loadDynamicFile_truthy _ _ _ _ Hrun).
Defined.

Lemma forRoot_keeps_process_env_witness :
  env (snd (forRoot Sample.dynamic_options
              (Sample.app_world (Readable (Sample.json_text "8888"))))) !! "HOST" =
  Some "localhost".
Proof.
  destruct (forRoot Sample.dynamic_options
              (Sample.app_world (Readable (Sample.json_text "8888"))))
    as [r w'] eqn:Hroot.
  destruct (forRoot_keeps_process_env Sample.dynamic_options
              (Sample.app_world (Readable (Sample.json_text "8888"))) w' r
              eq_refl Hroot) as (_ & _ & Henv).
  apply Henv. reflexivity.
Defined.

Lemma forRoot_syncs_every_key_witness :
  ∃ dm w',
    forRoot Sample.dynamic_options
      (Sample.app_world (Readable (Sample.json_text "8888"))) = (Ok dm, w') ∧
    env w' !! "PORT" = Some "8888" ∧ env w' !! "HOST" = Some "localhost".
Proof.
  destruct (forRoot Sample.dynamic_options
              (Sample.app_world (Readable (Sample.json_text "8888"))))
    as [[dm|e] w'] eqn:Hroot; [|vm_compute in Hroot; discriminate Hroot].
  exists dm, w'. split; [reflexivity|].
  assert (startup_config Sample.dynamic_options
            (Sample.app_world (Readable (Sample.json_text "8888"))) =
          (Ok {[ "PORT" := JNum 8888; "HOST" := JStr "localhost";
                 "HOME" := JStr "/root" ]},
           Sample.app_world (Readable (Sample.json_text "8888")))) as Hstart by run.
  pose proof (forRoot_syncs_every_key _ _ _ _ _ _ Hstart Hroot) as Hk.
  assert (validatedEnvConfigLoader dm = None) as Hnone
    by (vm_compute in Hroot; by injection Hroot as <- _).
  rewrite !Hk, Hnone. vm_compute. split; reflexivity.
Defined.

Lemma dynamic_override_stays_out_of_process_env_witness :
  (∃ merged,
     startup_config Sample.dynamic_options Scenario.exported_world =
       (Ok merged, Scenario.exported_world) ∧
     merged !! "PORT" = Some (JNum 8888)) ∧
  env (snd (forRoot Sample.dynamic_options Scenario.exported_world)) !! "PORT" =
    Some "3000".
Proof.
  destruct (forRoot Sample.dynamic_options Scenario.exported_world)
    as [r w'] eqn:Hroot.
  apply (dynamic_override_stays_out_of_process_env Sample.dynamic_options
           Scenario.exported_world Scenario.exported_world w'
           {[ "PORT" := "5000"; "HOST" := "example" ]}
           (JObj {[ "PORT" := JNum 8888 ]}) (JNum 8888) "PORT" "3000" r).
  - reflexivity.
  - run.
  - run.
  - reflexivity.
  - reflexivity.
  - exact Hroot.
Defined.

Lemma forRoot_unreadable_dynamic_file_witness :
  forRoot Sample.env_only_options (Sample.app_world Unreadable) =
    (Throw (SystemError Sample.dynamic_path), Sample.app_world Unreadable) ∧
  bootstrap Sample.env_only_options (Sample.app_world Unreadable) =
    (Throw (SystemError Sample.dynamic_path), Sample.app_world Unreadable).
Proof.
  apply (forRoot_unreadable_dynamic_file Sample.env_only_options
           (Sample.app_world Unreadable) (Sample.app_world Unreadable)
           {[ "PORT" := "5000"; "HOST" := "example" ]} Sample.dynamic_path).
  - run.
  - reflexivity.
  - reflexivity.
  - reflexivity.
Defined.

Lemma bootstrap_installs_validated_witness :
  ∃ this w' v,
    bootstrap Scenario.accept_options
      (Sample.app_world (Readable (Sample.json_text "8888"))) = (Ok this, w') ∧
    validated (host w') = Some v ∧
    v !! "PORT" = Some (JNum 8888) ∧ v !! "HOST" = Some (JStr "localhost").
Proof.
  destruct (bootstrap Scenario.accept_options
              (Sample.app_world (Readable (Sample.json_text "8888"))))
    as [[this|e] w'] eqn:Hboot; [|vm_compute in Hboot; discriminate Hboot].
  assert (startup_config Scenario.accept_options
            (Sample.app_world (Readable (Sample.json_text "8888"))) =
          (Ok {[ "PORT" := JNum 8888; "HOST" := JStr "localhost";
                 "HOME" := JStr "/root" ]},
           Sample.app_world (Readable (Sample.json_text "8888")))) as Hstart by run.
  destruct (bootstrap_installs_validated _ _ _ _ _ _ Hstart Hboot)
    as (v & Hv & Hinstalled).
  exists this, w', v. split; [reflexivity|]. split; [exact Hinstalled|].
  injection Hv as <-. split; reflexivity.
Defined.

Lemma bootstrap_watcher_witness :
  ∃ this w',
    bootstrap Scenario.accept_options
      (Sample.app_world (Readable (Sample.json_text "8888"))) = (Ok this, w') ∧
    watcher this = Some Sample.dynamic_path.
Proof.
  destruct (bootstrap Scenario.accept_options
              (Sample.app_world (Readable (Sample.json_text "8888"))))
    as [[this|e] w'] eqn:Hboot; [|vm_compute in Hboot; discriminate Hboot].
  exists this, w'. split; [reflexivity|].
  exact (proj1 (bootstrap_watcher _ _ _ _ Hboot)).
Defined.

Lemma watcher_event_frame_witness :
  env (snd (emit {| watcher := Some Sample.dynamic_path |} change
              Sample.dynamic_path
              (Sample.running_world (Readable (Sample.json_text "9999"))))) =
  Sample.shell_env.
Proof.
  destruct (emit {| watcher := Some Sample.dynamic_path |} change
              Sample.dynamic_path
              (Sample.running_world (Readable (Sample.json_text "9999"))))
    as [r w'] eqn:Hemit.
  exact (proj1 (proj2 (watcher_event_frame _ _ _ _ _ _ Hemit))).
Defined.

Lemma watcher_event_keeps_keys_witness :
  ∃ after,
    validated (host (snd (emit {| watcher := Some Sample.dynamic_path |} change
                            Sample.dynamic_path
                            (Sample.running_world
                               (Readable (Sample.json_text "9999")))))) =
      Some after ∧
    is_Some (after !! "HOST").
Proof.
  destruct (emit {| watcher := Some Sample.dynamic_path |} change
              Sample.dynamic_path
              (Sample.running_world (Readable (Sample.json_text "9999"))))
    as [r w'] eqn:Hemit.
  destruct (watcher_event_keeps_keys _ _ _ _ _ _ Sample.installed Hemit eq_refl)
    as (after & Hafter & Hkeys).
  exists after. split; [exact Hafter|]. apply Hkeys. vm_compute. eauto.
Defined.

Lemma watcher_event_idempotent_witness :
  (emit {| watcher := Some Sample.dynamic_path |} change Sample.dynamic_path ;;;
   emit {| watcher := Some Sample.dynamic_path |} change Sample.dynamic_path)
    (Sample.running_world (Readable (Sample.json_text "9999"))) =
  emit {| watcher := Some Sample.dynamic_path |} change Sample.dynamic_path
    (Sample.running_world (Readable (Sample.json_text "9999"))).
Proof.
  unfold bind.
  destruct (emit {| watcher := Some Sample.dynamic_path |} change
              Sample.dynamic_path
              (Sample.running_world (Readable (Sample.json_text "9999"))))
    as [[[]|e] w'] eqn:Hemit; [|reflexivity].
  apply (watcher_event_idempotent _ _ _ _ _ _) with (2 := Hemit).
  intros loaded Hload.
  assert (loadDynamicFile (Some Sample.dynamic_path)
            (Sample.running_world (Readable (Sample.json_text "9999"))) =
          (Ok (JObj {[ "PORT" := JNum 9999 ]}),
           Sample.running_world (Readable (Sample.json_text "9999")))) as Hreal by run.
  rewrite Hreal in Hload. injection Hload as <-. reflexivity.
Defined.

(** Why X17 asks for a mapping without [__proto__]: on [{"__proto__":null}]
    the first delivery takes the prototype away from the snapshot, and the
    second one, finding no setter, creates the key. *)
Example watcher_event_proto_not_idempotent :
  ∃ w1 w2,
    emit (H := Scenario.runtime) {| watcher := Some Sample.dynamic_path |} change
      Sample.dynamic_path (Sample.running_world (Readable Scenario.null_proto_text)) =
    (Ok tt, w1) ∧
    emit (H := Scenario.runtime) {| watcher := Some Sample.dynamic_path |} change
      Sample.dynamic_path w1 = (Ok tt, w2) ∧
    validated (host w1) = Some Sample.installed ∧
    snapshot_proto (host w1) = Some JNull ∧
    validated (host w2) = Some (<["__proto__" := JNull]> Sample.installed).
Proof. eexists _, _. repeat split; run. Qed.

Lemma watcher_reload_nothing_to_apply_witness :
  snd (emit {| watcher := Some Sample.dynamic_path |} add Sample.dynamic_path
         (Sample.running_world (Readable "null"))) =
  Sample.running_world (Readable "null").
Proof.
  destruct (emit {| watcher := Some Sample.dynamic_path |} add Sample.dynamic_path
              (Sample.running_world (Readable "null"))) as [r w'] eqn:Hemit.
  apply (watcher_reload_nothing_to_apply {| watcher := Some Sample.dynamic_path |}
           add Sample.dynamic_path (Sample.running_world (Readable "null")) w' r);
    [|exact Hemit].
  right. exists "null", JNull. repeat split; reflexivity.
Defined.

Lemma watcher_two_reloads_witness :
  ∃ w1 w2 final,
    emit {| watcher := Some Sample.dynamic_path |} add Sample.dynamic_path
      (Sample.running_world (Readable Sample.data_zero_text)) = (Ok tt, w1) ∧
    emit {| watcher := Some Sample.dynamic_path |} change Sample.dynamic_path
      (with_files (Sample.app_files (Readable (Sample.json_text "9999"))) w1) =
      (Ok tt, w2) ∧
    validated (host w2) = Some final ∧
    final !! "PORT" = Some (JNum 9999) ∧ final !! "data" = Some (JNum 0) ∧
    final !! "HOST" = Some (JStr "example").
Proof.
  destruct (watcher_two_reloads {| watcher := Some Sample.dynamic_path |}
              add change Sample.dynamic_path
              (Sample.running_world (Readable Sample.data_zero_text))
              (Sample.app_files (Readable (Sample.json_text "9999")))
              Sample.installed Sample.data_zero (JObj {[ "PORT" := JNum 9999 ]}))
    as (w1 & w2 & final & Hfirst & Hsecond & Hfinal & Hk).
  - eauto.
  - by left.
  - by right.
  - reflexivity.
  - run.
  - run.
  - exists w1, w2, final. repeat split; try done.
    all: rewrite Hk by discriminate; reflexivity.
Defined.

Lemma forRoot_validate_shadows_schema_witness :
  forRoot Scenario.accept_and_schema_options
    (Sample.app_world (Readable (Sample.json_text "8888"))) =
  forRoot Scenario.accept_options
    (Sample.app_world (Readable (Sample.json_text "8888"))).
Proof.
  apply (forRoot_validate_shadows_schema _ _ Scenario.accept); reflexivity.
Defined.
